(** * The SimpleFin synchronisation and query layer

    A shallow embedding of [src/services/db.py] and of the sync loop of
    [src/data-sync-scripts/simple-fin-chase-transactions.py].

    Python dictionaries are finite maps from strings to Python values,
    exceptions are an error monad, the database connection is explicit
    state (durable store, work of the open transaction), and the three
    tables are lists of rows in physical order, so that "a second row" is
    something the model can express. *)

From Stdlib Require Import ZArith Ascii.
From stdpp Require Import gmap strings list sorting.

Local Open Scope Z_scope.

(** ** Python values and exceptions *)

(** Operations of Python's [float] that the code relies on. *)
Class PyFloat (float : Type) := {
  float_of_Z : Z → float;
  float_of_string : string → option float;
  float_eqb : float → float → bool
}.

(** The scalar values a decoded JSON field can hold. *)
Inductive pyval (float : Type) :=
| PyNone
| PyBool (b : bool)
| PyInt (z : Z)
| PyFloat_ (f : float)
| PyStr (s : string).
Arguments PyNone {float}.
Arguments PyBool {float} b.
Arguments PyInt {float} z.
Arguments PyFloat_ {float} f.
Arguments PyStr {float} s.

Inductive exn :=
| KeyError (key : string)
| TypeError
| ValueError
| DataError
| IntegrityError.

Inductive result (A : Type) :=
| Ok (a : A)
| Raise (e : exn).
Arguments Ok {A} a.
Arguments Raise {A} e.

Definition is_ok {A} (r : result A) : bool :=
  match r with Ok _ => true | Raise _ => false end.

Definition rbind {A B} (r : result A) (k : A → result B) : result B :=
  match r with Ok a => k a | Raise e => Raise e end.

Notation "x ←? r ; k" := (rbind r (λ x, k))
  (at level 100, r at next level, k at level 200, right associativity).

(** [d[key]]: raises [KeyError] when the key is absent. *)
Definition getitem {V} (d : gmap string V) (key : string) : result V :=
  match d !! key with
  | Some v => Ok v
  | None => Raise (KeyError key)
  end.

(** [d.get(key, dflt)]: the stored value when the key is present (whatever
    it is, [None] included), the default otherwise. *)
Definition dict_get {V} (d : gmap string V) (key : string) (dflt : V) : V :=
  match d !! key with
  | Some v => v
  | None => dflt
  end.

Section python.
Context {float : Type} `{!PyFloat float}.

(** The builtin [float(v)].  An [int] beyond the range of a double, for
    which Python raises [OverflowError], is outside the model:
    [float_of_Z] is total. *)
Definition py_float (v : pyval float) : result float :=
  match v with
  | PyNone => Raise TypeError
  | PyBool b => Ok (float_of_Z (if b then 1 else 0))
  | PyInt z => Ok (float_of_Z z)
  | PyFloat_ f => Ok f
  | PyStr s =>
      match float_of_string s with
      | Some f => Ok f
      | None => Raise ValueError
      end
  end.

(** [v == n] for an integer literal [n]: numbers compare by value, a
    boolean counts as [0] or [1], anything else is unequal. *)
Definition py_eq_int (v : pyval float) (n : Z) : bool :=
  match v with
  | PyNone => false
  | PyBool b => (if b then 1 else 0) =? n
  | PyInt z => z =? n
  | PyFloat_ f => float_eqb f (float_of_Z n)
  | PyStr _ => false
  end.
End python.

(** ** The database *)

Section rows.
Context {float : Type}.

Record account_row := {
  a_id : string;
  a_name : pyval float;
  a_currency : pyval float;
  a_balance : float;
  a_available_balance : float;
  a_balance_date : Z;
  a_updated_at : option Z
}.

Record snapshot_row := {
  s_account_id : string;
  s_balance : float;
  s_available_balance : float;
  s_balance_date : Z;
  s_snapshot_taken_at : option Z
}.

Record transaction_row := {
  t_id : string;
  t_account_id : string;
  t_posted : bool;
  t_amount : float;
  t_description : pyval float;
  t_payee : pyval float;
  t_memo : pyval float;
  t_transacted_at : Z;
  t_pending : pyval float;
  t_last_updated_at : option Z
}.

Record db := {
  accounts : list account_row;
  account_snapshots : list snapshot_row;
  transactions : list transaction_row
}.
End rows.
Arguments account_row : clear implicits.
Arguments snapshot_row : clear implicits.
Arguments transaction_row : clear implicits.
Arguments db : clear implicits.

(** The server side that the source files leave open (the DDL of the
    three tables is not among them): what the server stores for a bound
    parameter, the defaults of the three stamp columns, the clock and the
    session's calendar.  Instants are integers; a key or a timestamp
    column takes no NULL. *)
Class Postgres (float : Type) := {
  (** text stored in a key column for a bound value; [None]: rejected *)
  pg_text : pyval float → option string;
  (** instant denoted by [to_timestamp(%s)]; [None]: rejected *)
  pg_timestamp : pyval float → option Z;
  (** calendar day of an instant, [DATE(ts)] *)
  pg_date : Z → Z;
  (** [NOW()] inside the n-th transaction the process opens *)
  pg_now : nat → Z;
  (** column defaults of the stamps, given [NOW()] *)
  pg_default_updated_at : Z → option Z;
  pg_default_snapshot_taken_at : Z → option Z;
  pg_default_last_updated_at : Z → option Z
}.

(** [INSERT ... ON CONFLICT (key) DO UPDATE]: the row in conflict with the
    proposed one is rewritten in place; without a conflict the proposed
    row is appended. *)
Fixpoint upsert {R} (conflict : R → bool) (on_conflict : R → R) (new : R)
    (rows : list R) : list R :=
  match rows with
  | [] => [new]
  | r :: rest =>
      if conflict r then on_conflict r :: rest
      else r :: upsert conflict on_conflict new rest
  end.

Section statements.
Context {float : Type} `{!Postgres float}.

Definition account_conflict (k : string) (r : account_row float) : bool :=
  bool_decide (a_id r = k).

Definition snapshot_conflict (k : string) (ts : Z)
    (r : snapshot_row float) : bool :=
  bool_decide (s_account_id r = k) && bool_decide (s_balance_date r = ts).

Definition transaction_conflict (k : string)
    (r : transaction_row float) : bool :=
  bool_decide (t_id r = k).

(** Modelled from the spec: the foreign keys of [account_snapshots] and
    [transactions] to [accounts], which the spec's schema gives and whose
    DDL is not among the source files.  A row can be inserted when the
    account it names has a row. *)
Definition account_exists (k : string) (d : db float) : bool :=
  existsb (account_conflict k) (accounts d).

(** The statement of [update_accounts_table]:
    [INSERT INTO accounts (id, name, currency, balance,
    available_balance, balance_date) VALUES (...) ON CONFLICT (id) DO
    UPDATE SET name, balance, available_balance, balance_date =
    EXCLUDED..., updated_at = NOW()].  The row proposed for insertion,
    the row an update leaves, and the statement with its
    [cur.rowcount]. *)
Definition account_insert (k : string) (name currency : pyval float)
    (balance available_balance : float) (ts now : Z) : account_row float :=
  {| a_id := k; a_name := name; a_currency := currency;
     a_balance := balance; a_available_balance := available_balance;
     a_balance_date := ts; a_updated_at := pg_default_updated_at now |}.

Definition account_update (name : pyval float)
    (balance available_balance : float) (ts now : Z)
    (old : account_row float) : account_row float :=
  {| a_id := a_id old; a_name := name; a_currency := a_currency old;
     a_balance := balance; a_available_balance := available_balance;
     a_balance_date := ts; a_updated_at := Some now |}.

Definition sql_upsert_account (account_id name currency : pyval float)
    (balance available_balance : float) (balance_date : pyval float)
    (now : Z) (d : db float) : result (nat * db float) :=
  match pg_text account_id, pg_timestamp balance_date with
  | Some k, Some ts =>
      Ok (1%nat,
          {| accounts :=
               upsert (account_conflict k)
                 (account_update name balance available_balance ts now)
                 (account_insert k name currency balance available_balance
                    ts now)
                 (accounts d);
             account_snapshots := account_snapshots d;
             transactions := transactions d |})
  | _, _ => Raise DataError
  end.

(** The statement of [update_account_snapshots_table]:
    [INSERT INTO account_snapshots (account_id, balance,
    available_balance, balance_date) VALUES (...) ON CONFLICT
    (account_id, balance_date) DO UPDATE SET balance, available_balance
    = EXCLUDED..., snapshot_taken_at = NOW()].  An inserted row needs
    its account (foreign key). *)
Definition snapshot_insert (k : string) (balance available_balance : float)
    (ts now : Z) : snapshot_row float :=
  {| s_account_id := k; s_balance := balance;
     s_available_balance := available_balance; s_balance_date := ts;
     s_snapshot_taken_at := pg_default_snapshot_taken_at now |}.

Definition snapshot_update (balance available_balance : float) (now : Z)
    (old : snapshot_row float) : snapshot_row float :=
  {| s_account_id := s_account_id old; s_balance := balance;
     s_available_balance := available_balance;
     s_balance_date := s_balance_date old;
     s_snapshot_taken_at := Some now |}.

Definition sql_upsert_snapshot (account_id : pyval float)
    (balance available_balance : float) (balance_date : pyval float)
    (now : Z) (d : db float) : result (nat * db float) :=
  match pg_text account_id, pg_timestamp balance_date with
  | Some k, Some ts =>
      if existsb (snapshot_conflict k ts) (account_snapshots d)
         || account_exists k d
      then Ok (1%nat,
               {| accounts := accounts d;
                  account_snapshots :=
                    upsert (snapshot_conflict k ts)
                      (snapshot_update balance available_balance now)
                      (snapshot_insert k balance available_balance ts now)
                      (account_snapshots d);
                  transactions := transactions d |})
      else Raise IntegrityError
  | _, _ => Raise DataError
  end.

(** The nine parameters bound to the [INSERT INTO transactions]
    statement, as Python computed them. *)
Record transaction_params := {
  p_id : pyval float;
  p_account_id : pyval float;
  p_posted : bool;
  p_amount : float;
  p_description : pyval float;
  p_payee : pyval float;
  p_memo : pyval float;
  p_transacted_at : pyval float;
  p_pending : pyval float
}.

(** The statement of [update_transactions_table]:
    [INSERT INTO transactions (id, account_id, posted, amount,
    description, payee, memo, transacted_at, pending) VALUES (...) ON
    CONFLICT (id) DO UPDATE SET posted, amount, description, payee,
    memo, transacted_at, pending = EXCLUDED..., last_updated_at =
    NOW()].  An inserted row needs its account (foreign key).  The
    values of the columns other than the keys and [transacted_at] are
    stored as sent: a value the server would refuse for its column (a
    [pending] that is no boolean) is outside the model. *)
Definition transaction_insert (k acct : string) (p : transaction_params)
    (ts now : Z) : transaction_row float :=
  {| t_id := k; t_account_id := acct;
     t_posted := p_posted p; t_amount := p_amount p;
     t_description := p_description p;
     t_payee := p_payee p; t_memo := p_memo p;
     t_transacted_at := ts; t_pending := p_pending p;
     t_last_updated_at := pg_default_last_updated_at now |}.

Definition transaction_update (p : transaction_params) (ts now : Z)
    (old : transaction_row float) : transaction_row float :=
  {| t_id := t_id old; t_account_id := t_account_id old;
     t_posted := p_posted p; t_amount := p_amount p;
     t_description := p_description p;
     t_payee := p_payee p; t_memo := p_memo p;
     t_transacted_at := ts; t_pending := p_pending p;
     t_last_updated_at := Some now |}.

Definition sql_upsert_transaction (p : transaction_params)
    (now : Z) (d : db float) : result (nat * db float) :=
  match pg_text (p_id p), pg_text (p_account_id p),
        pg_timestamp (p_transacted_at p) with
  | Some k, Some acct, Some ts =>
      if existsb (transaction_conflict k) (transactions d)
         || account_exists acct d
      then Ok (1%nat,
               {| accounts := accounts d;
                  account_snapshots := account_snapshots d;
                  transactions :=
                    upsert (transaction_conflict k)
                      (transaction_update p ts now)
                      (transaction_insert k acct p ts now)
                      (transactions d) |})
      else Raise IntegrityError
  | _, _, _ => Raise DataError
  end.

(** ** Connections: [get_db] *)

(** The process and its server: the committed tables, how many
    transactions were opened so far, how many connections are open. *)
Record world := {
  store : db float;
  sessions : nat;
  open_conns : nat
}.

(** An open connection: what is committed, what the open transaction
    sees, and that transaction's [NOW()]. *)
Record conn := {
  c_durable : db float;
  c_work : db float;
  c_now : Z
}.

(** Code that runs against an open connection and may raise. *)
Definition M (A : Type) : Type := conn → result A * conn.

Definition m_ret {A} (a : A) : M A := λ c, (Ok a, c).

Definition m_bind {A B} (m : M A) (k : A → M B) : M B :=
  λ c, match m c with
       | (Ok a, c') => k a c'
       | (Raise e, c') => (Raise e, c')
       end.

(** A Python expression evaluated inside the [with] block. *)
Definition m_lift {A} (r : result A) : M A := λ c, (r, c).

(** [cur.execute(stmt, params)] followed by [cur.rowcount]. *)
Definition execute (stmt : Z → db float → result (nat * db float))
    : M nat :=
  λ c, match stmt (c_now c) (c_work c) with
       | Ok (n, d) =>
           (Ok n, {| c_durable := c_durable c; c_work := d;
                     c_now := c_now c |})
       | Raise e => (Raise e, c)
       end.

Definition conn_commit (c : conn) : conn :=
  {| c_durable := c_work c; c_work := c_work c; c_now := c_now c |}.

Definition conn_rollback (c : conn) : conn :=
  {| c_durable := c_durable c; c_work := c_durable c; c_now := c_now c |}.

(** An explicit [conn.commit()] inside the [with] block. *)
Definition m_commit : M unit := λ c, (Ok (), conn_commit c).

(** [psycopg.connect(DATABASE_URL)], taken to succeed. *)
Definition connect (w : world) : conn * world :=
  ({| c_durable := store w; c_work := store w;
      c_now := pg_now (sessions w) |},
   {| store := store w; sessions := S (sessions w);
      open_conns := S (open_conns w) |}).

(** [conn.close()]: what was not committed is lost. *)
Definition conn_close (c : conn) (w : world) : world :=
  {| store := c_durable c; sessions := sessions w;
     open_conns := pred (open_conns w) |}.

(** [with get_db() as conn: body]:
    [try: yield conn; conn.commit()]
    [except Exception: conn.rollback(); raise]
    [finally: conn.close()] *)
Definition get_db {A} (body : M A) (w : world) : result A * world :=
  let '(c, w1) := connect w in
  match body c with
  | (Ok a, c') => (Ok a, conn_close (conn_commit c') w1)
  | (Raise e, c') => (Raise e, conn_close (conn_rollback c') w1)
  end.
End statements.
Arguments transaction_params : clear implicits.
Arguments world : clear implicits.
Arguments conn : clear implicits.
Arguments M : clear implicits.

Notation "x ←$ m ; k" := (m_bind m (λ x, k))
  (at level 100, m at next level, k at level 200, right associativity).

(** ** [src/services/db.py] *)

Section db_py.
Context {float : Type} `{!PyFloat float} `{!Postgres float}.

(** A decoded JSON object with scalar fields. *)
Abbreviation dict := (gmap string (pyval float)).

(** [update_accounts_table]: one statement, then an explicit
    [conn.commit()] before the row count is read and returned.  The
    [logfire] calls and the [except ...: logfire.error(...); raise]
    wrapper leave the outcome as it is and are not modelled. *)
Definition update_accounts_table (account_id name currency : pyval float)
    (balance available_balance : float) (balance_date : pyval float)
    : world float → result nat * world float :=
  get_db (
    row_count ←$ execute (sql_upsert_account account_id name currency
                            balance available_balance balance_date);
    _ ←$ m_commit;
    m_ret row_count).

(** The parameter tuple of one loop iteration of
    [update_transactions_table], in Python's evaluation order:
    [float(txn['amount'])], [txn.get('pending', False)], the
    [txn['id']] of the log line, then the tuple left to right. *)
Definition transaction_params_of (account_id : pyval float) (txn : dict)
    : result (transaction_params float) :=
  amount_v ←? getitem txn "amount";
  amount ←? py_float amount_v;
  let is_pending := dict_get txn "pending" (PyBool false) in
  id ←? getitem txn "id";
  posted ←? getitem txn "posted";
  let description := dict_get txn "description" (PyStr "") in
  let payee := dict_get txn "payee" (PyStr "") in
  let memo := dict_get txn "memo" (PyStr "") in
  transacted_at ←? getitem txn "transacted_at";
  Ok {| p_id := id; p_account_id := account_id;
        p_posted := py_eq_int posted 1;
        p_amount := amount;
        p_description := description; p_payee := payee; p_memo := memo;
        p_transacted_at := transacted_at;
        p_pending := is_pending |}.

(** One iteration of [for txn in transactions]. *)
Definition upsert_transaction (account_id : pyval float) (txn : dict)
    : M float nat :=
  p ←$ m_lift (transaction_params_of account_id txn);
  execute (sql_upsert_transaction p).

(** The loop, threading [count] ([count += cur.rowcount]).  The totals
    kept for the log line ([total_amount], [pending_count]) have no
    effect on the outcome and are left out. *)
Fixpoint upsert_transactions (account_id : pyval float)
    (transactions : list dict) (count : nat) : M float nat :=
  match transactions with
  | [] => m_ret count
  | txn :: rest =>
      n ←$ upsert_transaction account_id txn;
      upsert_transactions account_id rest (count + n)%nat
  end.

Definition update_transactions_table (account_id : pyval float)
    (transactions : list dict) : world float → result nat * world float :=
  get_db (upsert_transactions account_id transactions 0%nat).

Definition update_account_snapshots_table (account_id : pyval float)
    (balance available_balance : float) (balance_date : pyval float)
    : world float → result nat * world float :=
  get_db (execute (sql_upsert_snapshot account_id balance
                     available_balance balance_date)).

(** One element of the list [get_todays_transactions] returns: the
    dictionary [dict(zip(columns, row))] over the seven selected
    columns. *)
Record transaction_view := {
  v_account_name : pyval float;
  v_amount : float;
  v_description : pyval float;
  v_payee : pyval float;
  v_memo : pyval float;
  v_transacted_at : Z;
  v_pending : pyval float
}.

Definition view_of (a : account_row float) (t : transaction_row float)
    : transaction_view :=
  {| v_account_name := a_name a; v_amount := t_amount t;
     v_description := t_description t; v_payee := t_payee t;
     v_memo := t_memo t; v_transacted_at := t_transacted_at t;
     v_pending := t_pending t |}.

(** [FROM transactions t JOIN accounts a ON t.account_id = a.id] *)
Definition join_accounts (d : db float)
    : list (account_row float * transaction_row float) :=
  t ← transactions d;
  a ← filter (λ a, a_id a = t_account_id t) (accounts d);
  [(a, t)].

(** [WHERE DATE(t.transacted_at) = CURRENT_DATE - INTERVAL '1 day'] *)
Definition on_previous_day (now : Z) (t : transaction_row float) : Prop :=
  pg_date (t_transacted_at t) = pg_date now - 1.

(** [ORDER BY t.transacted_at DESC] *)
Definition later_first (x y : account_row float * transaction_row float)
    : Prop :=
  (t_transacted_at y.2 ≤ t_transacted_at x.2)%Z.

Global Instance on_previous_day_dec now t : Decision (on_previous_day now t).
Proof. unfold on_previous_day. apply _. Defined.

Global Instance later_first_dec x y : Decision (later_first x y).
Proof. unfold later_first. apply _. Defined.

(** The [SELECT] of [get_todays_transactions].  [ORDER BY] leaves the
    order of rows with equal [transacted_at] open; the stable
    [merge_sort] gives one of the orders it allows. *)
Definition sql_select_previous_day (now : Z) (d : db float)
    : list transaction_view :=
  (λ at_, view_of at_.1 at_.2) <$>
    merge_sort later_first
      (filter (λ at_, on_previous_day now at_.2) (join_accounts d)).

Definition get_todays_transactions
    : world float → result (list transaction_view) * world float :=
  get_db (λ c, (Ok (sql_select_previous_day (c_now c) (c_work c)), c)).
End db_py.
Arguments transaction_view : clear implicits.

(** ** [src/data-sync-scripts/simple-fin-chase-transactions.py] *)

Section sync_py.
Context {float : Type} `{!PyFloat float} `{!Postgres float}.

Abbreviation dict := (gmap string (pyval float)).

(** One element of the response's [accounts] list, in the shape the spec
    gives for the response: scalar fields, and under [transactions]
    (when the key is there) a list of transaction objects. *)
Record account_data := {
  fields : dict;
  nested_transactions : option (list dict)
}.

(** The decoded response: the list under [accounts], when the key is
    there. *)
Record api_response := {
  response_accounts : option (list account_data)
}.

(** Calls in sequence; an exception ends the sequence. *)
Definition w_bind {A B} (m : world float → result A * world float)
    (k : A → world float → result B * world float)
    : world float → result B * world float :=
  λ w, match m w with
       | (Ok a, w') => k a w'
       | (Raise e, w') => (Raise e, w')
       end.

Definition w_lift {A} (r : result A)
    : world float → result A * world float :=
  λ w, (r, w).

(** The arguments of the [update_accounts_table] call, evaluated left
    to right. *)
Definition account_args (account_data : account_data)
    : result (pyval float * pyval float * pyval float * float * float
              * pyval float) :=
  id ←? getitem (fields account_data) "id";
  name ←? getitem (fields account_data) "name";
  currency ←? getitem (fields account_data) "currency";
  balance_v ←? getitem (fields account_data) "balance";
  balance ←? py_float balance_v;
  available_v ←? getitem (fields account_data) "available-balance";
  available ←? py_float available_v;
  balance_date ←? getitem (fields account_data) "balance-date";
  Ok (id, name, currency, balance, available, balance_date).

(** The arguments of the [update_account_snapshots_table] call. *)
Definition snapshot_args (account_data : account_data)
    : result (pyval float * float * float * pyval float) :=
  id ←? getitem (fields account_data) "id";
  balance_v ←? getitem (fields account_data) "balance";
  balance ←? py_float balance_v;
  available_v ←? getitem (fields account_data) "available-balance";
  available ←? py_float available_v;
  balance_date ←? getitem (fields account_data) "balance-date";
  Ok (id, balance, available, balance_date).

(** [sync_account_from_api]; the value returned is
    [sync_statistics.total_transactions], to which the length of the
    batch is added before and after the batch is written. *)
Definition sync_account_from_api (account_data : account_data)
    : world float → result nat * world float :=
  w_bind (w_lift (account_args account_data))
    (λ '(id, name, currency, balance, available, balance_date),
  w_bind (update_accounts_table id name currency balance available
            balance_date) (λ _,
  w_bind (w_lift (snapshot_args account_data))
    (λ '(id, balance, available, balance_date),
  w_bind (update_account_snapshots_table id balance available
            balance_date) (λ _,
  match nested_transactions account_data with
  | Some (txn :: rest) =>
      let transactions := txn :: rest in
      w_bind (w_lift (getitem (fields account_data) "id")) (λ id,
      w_bind (update_transactions_table id transactions) (λ _,
      w_lift (Ok (length transactions + length transactions)%nat)))
  | _ => w_lift (Ok 0%nat)
  end)))).

(** The loop of [sync_all_accounts]. *)
Fixpoint sync_accounts (accounts : list account_data)
    : world float → result unit * world float :=
  match accounts with
  | [] => w_lift (Ok ())
  | account :: rest =>
      w_bind (sync_account_from_api account) (λ _, sync_accounts rest)
  end.

(** [sync_all_accounts]: [api_response.get('accounts', [])]. *)
Definition sync_all_accounts (api_response : api_response)
    : world float → result unit * world float :=
  sync_accounts (default [] (response_accounts api_response)).
End sync_py.
Arguments account_data : clear implicits.
Arguments api_response : clear implicits.

(** *** The access URL

    The script's module-level code takes the credentials out of the
    network location of [SIMPLEFIN_ACCESS_URL] (the [netloc] that
    [urlparse] returns) and rebuilds the URL of the accounts endpoint
    without them. *)

(** [c in s], for a one-character [c]. *)
Fixpoint occurs (c : Ascii.ascii) (s : string) : bool :=
  match s with
  | EmptyString => false
  | String c' rest => if decide (c' = c) then true else occurs c rest
  end.

(** [s.split(sep, 1)], for a one-character [sep]: the text before the
    first [sep] and the text after it, or [s] alone when [sep] does not
    occur. *)
Fixpoint py_split1 (sep : Ascii.ascii) (s : string) : list string :=
  match s with
  | EmptyString => [EmptyString]
  | String c rest =>
      if decide (c = sep) then [EmptyString; rest]
      else match py_split1 sep rest with
           | first :: others => String c first :: others
           | [] => [String c EmptyString]
           end
  end.

(** [if '@' in netloc: auth, netloc = netloc.split('@', 1); username,
    password = auth.split(':', 1)] [else: raise ValueError(...)].
    Unpacking a one-element list into two names raises [ValueError] too.
    The triple is (username, password, netloc without credentials).
    The network location is a string: a run without
    [SIMPLEFIN_ACCESS_URL], where [urlparse(None)] gives a bytes
    location, is outside the model. *)
Definition split_credentials (netloc : string)
    : result (string * string * string) :=
  if occurs "@"%char netloc then
    match py_split1 "@"%char netloc with
    | [auth; host] =>
        match py_split1 ":"%char auth with
        | [username; password] => Ok (username, password, host)
        | _ => Raise ValueError
        end
    | _ => Raise ValueError
    end
  else Raise ValueError.

(** ** An instance to run the definitions on

    Amounts are whole numbers (no string parses as one), a key column
    takes strings, [to_timestamp] takes integers (seconds), a day has
    86400 seconds, the n-th transaction starts at second [200000 + n], and
    the stamp columns default to [NOW()]. *)

#[export] Instance whole_float : PyFloat Z := {|
  float_of_Z := id;
  float_of_string := λ _, None;
  float_eqb := Z.eqb
|}.

#[export] Instance sample_pg : Postgres Z := {|
  pg_text := λ v, match v with PyStr s => Some s | _ => None end;
  pg_timestamp := λ v, match v with PyInt z => Some z | _ => None end;
  pg_date := λ ts, ts / 86400;
  pg_now := λ n, 200000 + Z.of_nat n;
  pg_default_updated_at := Some;
  pg_default_snapshot_taken_at := Some;
  pg_default_last_updated_at := Some
|}.

Definition empty_db : db Z :=
  {| accounts := []; account_snapshots := []; transactions := [] |}.

Definition fresh_world : world Z :=
  {| store := empty_db; sessions := 0; open_conns := 0 |}.

(** The payload [{id: "A", name: "Checking", currency: "USD", balance:
    100, available-balance: 90, balance-date: 86400}] with the given
    transactions. *)
Definition sample_account (id name : string) (balance : Z)
    (txns : option (list (gmap string (pyval Z)))) : account_data Z :=
  {| fields := {[ "id" := PyStr id; "name" := PyStr name;
                  "currency" := PyStr "USD"; "balance" := PyInt balance;
                  "available-balance" := PyInt 90;
                  "balance-date" := PyInt 86400 ]};
     nested_transactions := txns |}.

Definition sample_txn (id : string) (amount posted : Z) (at_ : Z)
    : gmap string (pyval Z) :=
  {[ "id" := PyStr id; "amount" := PyInt amount; "posted" := PyInt posted;
     "transacted_at" := PyInt at_ ]}.

(** A transaction record without the [posted] indicator. *)
Definition txn_without_posted (id : string) : gmap string (pyval Z) :=
  {[ "id" := PyStr id; "amount" := PyInt 5; "transacted_at" := PyInt 100 ]}.

(** A transaction record without the required [amount]. *)
Definition txn_without_amount (id : string) : gmap string (pyval Z) :=
  {[ "id" := PyStr id; "posted" := PyInt 1; "transacted_at" := PyInt 100 ]}.

(** The world after the payload of account "A" (no transactions) was
    synced into the empty database. *)
Definition world_with_A : world Z :=
  (sync_account_from_api (sample_account "A" "Checking" 100 None)
     fresh_world).2.

(** The world after [update_accounts_table] alone wrote the row of
    account "A": no snapshot yet. *)
Definition world_with_account_row : world Z :=
  (update_accounts_table (PyStr "A") (PyStr "Checking") (PyStr "USD")
     100 90 (PyInt 86400) fresh_world).2.

(** Three payloads of one response: account "A" with one transaction,
    account "B" whose batch holds a record without [amount], account "C"
    without transactions. *)
Definition payload_A : account_data Z :=
  sample_account "A" "Checking" 100 (Some [sample_txn "a1" 5 1 100]).

Definition payload_B_bad_batch : account_data Z :=
  sample_account "B" "Savings" 500 (Some [txn_without_amount "b1"]).

Definition payload_C : account_data Z :=
  sample_account "C" "Card" 0 None.

(** The payload of account "A" without its [currency]. *)
Definition payload_without_currency : account_data Z :=
  {| fields := delete "currency" (fields payload_A);
     nested_transactions := nested_transactions payload_A |}.

(** Account "A" with one transaction of day 1 (second 90000). *)
Definition payload_A_day1 : account_data Z :=
  sample_account "A" "Checking" 100 (Some [sample_txn "a1" 5 1 90000]).

(** The world after account "A" with its transaction "a1" and account
    "B" without transactions were synced into the empty database. *)
Definition world_after_A_and_B : world Z :=
  (sync_all_accounts
     {| response_accounts :=
          Some [payload_A; sample_account "B" "Savings" 500 None] |}
     fresh_world).2.

(** Accounts "A" (Checking) and "B" (Savings), each with one transaction
    of day 1, and "C" without any; the clock of [sample_pg] is in day 2. *)
Definition world_with_two_accounts : world Z :=
  (sync_all_accounts
     {| response_accounts :=
          Some [sample_account "A" "Checking" 100
                  (Some [sample_txn "a1" 5 1 90000]);
                sample_account "B" "Savings" 500
                  (Some [sample_txn "b1" 7 0 100000;
                         sample_txn "b2" 9 0 172800]);
                payload_C] |}
     fresh_world).2.

(** ** Vocabulary of the statements *)

Section vocabulary.
Context {float : Type} `{!PyFloat float} `{!Postgres float}.

(** The key columns of the three tables. *)
Definition account_keys (d : db float) : list string :=
  a_id <$> accounts d.

Definition snapshot_key (r : snapshot_row float) : string * Z :=
  (s_account_id r, s_balance_date r).

Definition snapshot_keys (d : db float) : list (string * Z) :=
  snapshot_key <$> account_snapshots d.

Definition transaction_keys (d : db float) : list string :=
  t_id <$> transactions d.

(** The primary keys and the unique constraint hold. *)
Definition keys_unique (d : db float) : Prop :=
  NoDup (account_keys d) ∧ NoDup (snapshot_keys d)
  ∧ NoDup (transaction_keys d).

(** A row without its stamp column. *)
Definition account_unstamped (r : account_row float) : account_row float :=
  {| a_id := a_id r; a_name := a_name r; a_currency := a_currency r;
     a_balance := a_balance r;
     a_available_balance := a_available_balance r;
     a_balance_date := a_balance_date r; a_updated_at := None |}.

Definition snapshot_unstamped (r : snapshot_row float)
    : snapshot_row float :=
  {| s_account_id := s_account_id r; s_balance := s_balance r;
     s_available_balance := s_available_balance r;
     s_balance_date := s_balance_date r; s_snapshot_taken_at := None |}.

(** The key under which a transaction record is stored, when it has one. *)
Definition txn_key (txn : gmap string (pyval float)) : option string :=
  txn !! "id" ≫= pg_text.

(** The rows stored under an (account id, balance date) pair. *)
Definition snapshots_at (k : string) (ts : Z) (d : db float)
    : list (snapshot_row float) :=
  filter (λ r, snapshot_key r = (k, ts)) (account_snapshots d).

(** The stamp of the snapshot a call made at [now] leaves: the column's
    default when the pair had no row in [d], [now] when it had one. *)
Definition snapshot_stamp (k : string) (ts now : Z) (d : db float)
    : option Z :=
  match snapshots_at k ts d with
  | [] => pg_default_snapshot_taken_at now
  | _ :: _ => Some now
  end.

(** The rows stored under a transaction id. *)
Definition transactions_with_id (k : string) (d : db float)
    : list (transaction_row float) :=
  filter (λ r, t_id r = k) (transactions d).

(** The rows stored under an account id. *)
Definition accounts_with_id (k : string) (d : db float)
    : list (account_row float) :=
  filter (λ r, a_id r = k) (accounts d).

(** The account a transaction belongs to, when it has a row. *)
Definition owner (d : db float) (t : transaction_row float)
    : option (account_row float) :=
  head (filter (λ a, a_id a = t_account_id t) (accounts d)).

(** What the query is to return, up to the order: for each transaction
    of the previous day that has its owner, in table order, the owner's
    name and the transaction's amount, description, payee, memo,
    transacted-at and pending. *)
Definition previous_day_views (now : Z) (d : db float)
    : list (transaction_view float) :=
  omap (λ t, (λ a, {| v_account_name := a_name a;
                      v_amount := t_amount t;
                      v_description := t_description t;
                      v_payee := t_payee t;
                      v_memo := t_memo t;
                      v_transacted_at := t_transacted_at t;
                      v_pending := t_pending t |}) <$> owner d t)
    (filter (on_previous_day now) (transactions d)).

(** Most recent first. *)
Definition newest_first (v1 v2 : transaction_view float) : Prop :=
  (v_transacted_at v2 ≤ v_transacted_at v1)%Z.

(** Every key of the three tables of [d] is a key of [d']: no row was
    removed and no key column rewritten. *)
Definition rows_kept (d d' : db float) : Prop :=
  account_keys d ⊆ account_keys d'
  ∧ snapshot_keys d ⊆ snapshot_keys d'
  ∧ transaction_keys d ⊆ transaction_keys d'.

(** A sequence of [update_account_snapshots_table] calls, whatever each
    one's outcome. *)
Fixpoint snapshot_upserts
    (calls : list (pyval float * float * float * pyval float))
    (w : world float) : world float :=
  match calls with
  | [] => w
  | (account_id, balance, available_balance, balance_date) :: rest =>
      snapshot_upserts rest
        (update_account_snapshots_table account_id balance
           available_balance balance_date w).2
  end.

(** The state a call leaves when its transaction ends with the tables
    [d]: one more session, the connection released. *)
Definition session_over (w : world float) (d : db float) : world float :=
  {| store := d; sessions := S (sessions w); open_conns := open_conns w |}.
End vocabulary.

(** * Properties *)

(** ** Upserts on a table *)

Section upsert_facts.
Context {R : Type} (conflict : R → bool) (on_conflict : R → R) (new : R).

Lemma upsert_conflict_length rows :
  existsb conflict rows = true →
  length (upsert conflict on_conflict new rows) = length rows.
Proof.
  induction rows as [|r rows IH]; simpl; [done|].
  destruct (conflict r); simpl; [done|].
  intros Hex. by rewrite IH.
Qed.

Lemma upsert_fresh rows :
  existsb conflict rows = false →
  upsert conflict on_conflict new rows = rows ++ [new].
Proof.
  induction rows as [|r rows IH]; simpl; [done|].
  destruct (conflict r); simpl; [done|].
  intros Hex. by rewrite IH.
Qed.

(** Rows are never removed: a property that the update keeps, and that
    held of some row, still holds of some row. *)
Lemma upsert_existsb_mono (P : R → bool) rows :
  (∀ r, P r = true → P (on_conflict r) = true) →
  existsb P rows = true →
  existsb P (upsert conflict on_conflict new rows) = true.
Proof.
  intros Hkeep. induction rows as [|r rows IH]; simpl; [done|].
  destruct (conflict r); simpl.
  - destruct (P r) eqn:HP; simpl; [by rewrite Hkeep|].
    intros ->. by rewrite orb_true_r.
  - destruct (P r); simpl; [done|]. apply IH.
Qed.

(** After the statement the key has a row. *)
Lemma upsert_existsb_key rows :
  conflict new = true →
  (∀ r, conflict r = true → conflict (on_conflict r) = true) →
  existsb conflict (upsert conflict on_conflict new rows) = true.
Proof.
  intros Hnew Hkeep. induction rows as [|r rows IH]; simpl.
  - by rewrite Hnew.
  - destruct (conflict r) eqn:Hr; simpl.
    + by rewrite Hkeep.
    + by rewrite Hr.
Qed.

(** The rows of other keys stay as they are, in their order. *)
Lemma upsert_filter_other (P : R → Prop) `{!∀ r, Decision (P r)} rows :
  (∀ r, conflict r = true → ¬ P r) →
  (∀ r, conflict r = true → ¬ P (on_conflict r)) →
  ¬ P new →
  filter P (upsert conflict on_conflict new rows) = filter P rows.
Proof.
  intros Hold Hupd Hnew. induction rows as [|r rows IH]; simpl.
  - by rewrite filter_cons_False.
  - destruct (conflict r) eqn:Hr.
    + rewrite !filter_cons_False; auto.
    + rewrite !filter_cons, IH. done.
Qed.

(** The rows of the key written: the updated row when there was exactly
    one, the proposed row when there was none. *)
Lemma upsert_filter_key (P : R → Prop) `{!∀ r, Decision (P r)} rows :
  (∀ r, conflict r = true ↔ P r) →
  (∀ r, P r → P (on_conflict r)) →
  P new →
  filter P (upsert conflict on_conflict new rows) =
    match filter P rows with
    | [] => [new]
    | old :: others => on_conflict old :: others
    end.
Proof.
  intros Hiff Hupd Hnew. induction rows as [|r rows IH]; simpl.
  - by rewrite filter_cons_True.
  - destruct (conflict r) eqn:Hr.
    + assert (P r) by by apply Hiff.
      rewrite !filter_cons_True; auto.
    + assert (¬ P r) by (rewrite <-Hiff; congruence).
      rewrite !filter_cons_False; auto.
Qed.

Lemma existsb_filter_nil (P : R → Prop) `{!∀ r, Decision (P r)} rows :
  (∀ r, conflict r = true ↔ P r) →
  filter P rows = [] → existsb conflict rows = false.
Proof.
  intros Hiff. induction rows as [|r rows IH]; simpl; [done|].
  destruct (decide (P r)) as [HP|HP].
  - by rewrite filter_cons_True.
  - rewrite filter_cons_False by done. intros Hnil.
    rewrite IH by done.
    destruct (conflict r) eqn:Hr; [|done]. by apply Hiff in Hr.
Qed.

Lemma existsb_filter_cons (P : R → Prop) `{!∀ r, Decision (P r)} rows x xs :
  (∀ r, conflict r = true ↔ P r) →
  filter P rows = x :: xs → existsb conflict rows = true.
Proof.
  intros Hiff. induction rows as [|r rows IH]; simpl; [done|].
  destruct (decide (P r)) as [HP|HP].
  - intros _. apply Hiff in HP. by rewrite HP.
  - rewrite filter_cons_False by done. intros Hcons.
    rewrite IH by done. apply orb_true_r.
Qed.

(** The key column after the statement. *)
Lemma upsert_keys {K} (key : R → K) (k : K) rows :
  (∀ r, conflict r = true ↔ key r = k) →
  (∀ r, key (on_conflict r) = key r) →
  key new = k →
  key <$> upsert conflict on_conflict new rows =
    if existsb conflict rows then key <$> rows else (key <$> rows) ++ [k].
Proof.
  intros Hiff Hupd Hnew. induction rows as [|r rows IH]; csimpl.
  - by rewrite Hnew.
  - destruct (conflict r) eqn:Hr; csimpl.
    + by rewrite Hupd.
    + rewrite IH. by destruct (existsb conflict rows).
Qed.

(** A key constraint that held before the statement holds after it. *)
Lemma upsert_keys_NoDup {K} (key : R → K) (k : K) rows :
  (∀ r, conflict r = true ↔ key r = k) →
  (∀ r, key (on_conflict r) = key r) →
  key new = k →
  NoDup (key <$> rows) →
  NoDup (key <$> upsert conflict on_conflict new rows).
Proof.
  intros Hiff Hupd Hnew Hnodup.
  rewrite (upsert_keys key k) by done.
  destruct (existsb conflict rows) eqn:Hex; [done|].
  apply NoDup_app. split_and!; [done| |apply NoDup_singleton].
  intros x Hx ->%list_elem_of_singleton.
  apply list_elem_of_fmap in Hx as (r & Hk & Hr).
  assert (existsb conflict rows = true); [|congruence].
  apply existsb_exists. exists r. split.
  - by apply list_elem_of_In.
  - by apply Hiff.
Qed.

(** The statement looks past the rows that are not in conflict. *)
Lemma upsert_app_fresh rows1 rows2 :
  existsb conflict rows1 = false →
  upsert conflict on_conflict new (rows1 ++ rows2) =
    rows1 ++ upsert conflict on_conflict new rows2.
Proof.
  induction rows1 as [|r rows1 IH]; simpl; [done|].
  destruct (conflict r); simpl; [done|].
  intros Hex. by rewrite IH.
Qed.

(** Running the statement again with the same key and the same values
    changes nothing that [erase] keeps. *)
Lemma upsert_again {R'} (erase : R → R') (on_conflict' : R → R) (new' : R)
    rows :
  conflict new = true →
  (∀ r, conflict r = true → conflict (on_conflict r) = true) →
  (∀ r, conflict r = true →
        erase (on_conflict' (on_conflict r)) = erase (on_conflict r)) →
  erase (on_conflict' new) = erase new →
  erase <$> upsert conflict on_conflict' new'
              (upsert conflict on_conflict new rows)
    = erase <$> upsert conflict on_conflict new rows.
Proof.
  intros Hnew Hkeep Hsame Hsame_new.
  induction rows as [|r rows IH]; simpl.
  - rewrite Hnew. csimpl. by rewrite Hsame_new.
  - destruct (conflict r) eqn:Hr; simpl.
    + rewrite (Hkeep r Hr). csimpl. by rewrite Hsame.
    + rewrite Hr. csimpl. by rewrite IH.
Qed.
End upsert_facts.

(** Under a key constraint a key has at most one row. *)
Lemma filter_key_unique {R K} `{EqDecision K} (key : R → K) (k : K)
    (rows : list R) x y others :
  NoDup (key <$> rows) →
  filter (λ r, key r = k) rows = x :: y :: others → False.
Proof.
  intros Hnodup Hfilter.
  assert (NoDup (key <$> filter (λ r, key r = k) rows)) as Hsub.
  { eapply sublist_NoDup; [done|]. apply fmap_sublist, sublist_filter. }
  assert (key x = k ∧ key y = k) as [Hx Hy].
  { split.
    - eapply (proj1 (list_elem_of_filter (λ r, key r = k) rows x)).
      rewrite Hfilter. apply list_elem_of_here.
    - eapply (proj1 (list_elem_of_filter (λ r, key r = k) rows y)).
      rewrite Hfilter. apply list_elem_of_further, list_elem_of_here. }
  rewrite Hfilter in Hsub. csimpl in Hsub. rewrite Hx, Hy in Hsub.
  apply NoDup_cons in Hsub as [Hnotin _]. apply Hnotin, list_elem_of_here.
Qed.

(** ** Connections and units of work *)

Section connection_facts.
Context {float : Type} `{!PyFloat float} `{!Postgres float}.

Lemma get_db_execute
    (stmt : Z → db float → result (nat * db float)) (w : world float) :
  get_db (execute stmt) w =
    match stmt (pg_now (sessions w)) (store w) with
    | Ok (n, d) => (Ok n, session_over w d)
    | Raise e => (Raise e, session_over w (store w))
    end.
Proof.
  unfold get_db, execute, connect; simpl.
  by destruct (stmt _ _) as [[n d]|e].
Qed.

Lemma update_accounts_table_unfold account_id name currency balance
    available_balance balance_date (w : world float) :
  update_accounts_table account_id name currency balance available_balance
      balance_date w =
    match sql_upsert_account account_id name currency balance
            available_balance balance_date (pg_now (sessions w)) (store w)
    with
    | Ok (n, d) => (Ok n, session_over w d)
    | Raise e => (Raise e, session_over w (store w))
    end.
Proof.
  unfold update_accounts_table, get_db, m_bind, execute, m_commit, m_ret,
    connect; simpl.
  by destruct (sql_upsert_account _ _ _ _ _ _ _ _) as [[n d]|e].
Qed.

Lemma update_account_snapshots_table_unfold account_id balance
    available_balance balance_date (w : world float) :
  update_account_snapshots_table account_id balance available_balance
      balance_date w =
    match sql_upsert_snapshot account_id balance available_balance
            balance_date (pg_now (sessions w)) (store w)
    with
    | Ok (n, d) => (Ok n, session_over w d)
    | Raise e => (Raise e, session_over w (store w))
    end.
Proof. apply get_db_execute. Qed.

(** The loop body and the loop never commit, and the transaction's clock
    does not move. *)
Lemma upsert_transaction_conn account_id txn (c : conn float) :
  c_durable (upsert_transaction account_id txn c).2 = c_durable c
  ∧ c_now (upsert_transaction account_id txn c).2 = c_now c.
Proof.
  unfold upsert_transaction, m_bind, m_lift, execute.
  destruct (transaction_params_of account_id txn) as [p|e]; simpl; [|done].
  by destruct (sql_upsert_transaction p _ _) as [[n d]|e].
Qed.

Lemma upsert_transactions_conn account_id txns count (c : conn float) :
  c_durable (upsert_transactions account_id txns count c).2 = c_durable c
  ∧ c_now (upsert_transactions account_id txns count c).2 = c_now c.
Proof.
  revert count c. induction txns as [|txn txns IH]; intros count c; simpl.
  - done.
  - unfold m_bind.
    pose proof (upsert_transaction_conn account_id txn c) as [Hd Hn].
    destruct (upsert_transaction account_id txn c) as [[n|e] c1]; simpl in *.
    + destruct (IH (count + n)%nat c1) as [Hd' Hn']. split; congruence.
    + done.
Qed.

(** The loop over a batch split in two. *)
Lemma upsert_transactions_app account_id txns1 txns2 count (c : conn float) :
  upsert_transactions account_id (txns1 ++ txns2) count c =
    match upsert_transactions account_id txns1 count c with
    | (Ok n, c1) => upsert_transactions account_id txns2 n c1
    | (Raise e, c1) => (Raise e, c1)
    end.
Proof.
  revert count c. induction txns1 as [|txn txns1 IH]; intros count c; simpl.
  - done.
  - unfold m_bind.
    destruct (upsert_transaction account_id txn c) as [[n|e] c1]; [|done].
    apply IH.
Qed.

Lemma update_transactions_table_unfold account_id txns (w : world float) :
  update_transactions_table account_id txns w =
    match upsert_transactions account_id txns 0%nat (connect w).1 with
    | (Ok n, c) => (Ok n, session_over w (c_work c))
    | (Raise e, _) => (Raise e, session_over w (store w))
    end.
Proof.
  unfold update_transactions_table, get_db.
  pose proof (upsert_transactions_conn account_id txns 0%nat (connect w).1)
    as [Hd _].
  simpl in *.
  destruct (upsert_transactions account_id txns 0%nat _) as [[n|e] c];
    simpl in *; [done|].
  unfold session_over, conn_close, conn_rollback; simpl. by rewrite Hd.
Qed.

Lemma get_db_unfold {A} (body : M float A) (w : world float) :
  get_db body w =
    match body (connect w).1 with
    | (Ok a, c) => (Ok a, session_over w (c_work c))
    | (Raise e, c) => (Raise e, session_over w (c_durable c))
    end.
Proof. unfold get_db; simpl. by destruct (body _) as [[a|e] c]. Qed.

(** Whatever the outcome, a call uses one session and leaves no
    connection open. *)
Lemma get_db_sessions {A} (body : M float A) (w : world float) :
  sessions (get_db body w).2 = S (sessions w)
  ∧ open_conns (get_db body w).2 = open_conns w.
Proof.
  unfold get_db; simpl. by destruct (body _) as [[a|e] c].
Qed.
End connection_facts.

Section unit_of_work.
Context {float : Type} `{!PyFloat float} `{!Postgres float}.

(** C9. A unit of work run under [get_db] returns what its body returns
    or raises what its body raises; when the body completes, the work of
    its transaction is committed; when it raises, what it had not
    committed is rolled back; and on either path the connection is
    released.  For the four units of work of [db.py] this means: a call
    that raises leaves the tables as it found them, and a call that
    returns leaves the tables its statements produced. *)
Theorem get_db_commit_rollback_release {A} (body : M float A)
    (w : world float) :
  let c0 := (connect w).1 in
  (get_db body w).1 = (body c0).1
  ∧ open_conns (get_db body w).2 = open_conns w
  ∧ (is_ok (body c0).1 = true →
       store (get_db body w).2 = c_work (body c0).2)
  ∧ (is_ok (body c0).1 = false →
       store (get_db body w).2 = c_durable (body c0).2)
  ∧ (∀ account_id name currency balance available balance_date,
       let out := update_accounts_table account_id name currency balance
                    available balance_date w in
       open_conns out.2 = open_conns w
       ∧ (is_ok out.1 = false → store out.2 = store w)
       ∧ (is_ok out.1 = true →
            sql_upsert_account account_id name currency balance available
              balance_date (pg_now (sessions w)) (store w)
            = Ok (1%nat, store out.2)))
  ∧ (∀ account_id balance available balance_date,
       let out := update_account_snapshots_table account_id balance
                    available balance_date w in
       open_conns out.2 = open_conns w
       ∧ (is_ok out.1 = false → store out.2 = store w)
       ∧ (is_ok out.1 = true →
            sql_upsert_snapshot account_id balance available balance_date
              (pg_now (sessions w)) (store w)
            = Ok (1%nat, store out.2)))
  ∧ (∀ account_id txns,
       let out := update_transactions_table account_id txns w in
       open_conns out.2 = open_conns w
       ∧ (is_ok out.1 = false → store out.2 = store w)
       ∧ (is_ok out.1 = true →
            store out.2 =
              c_work (upsert_transactions account_id txns 0%nat c0).2))
  ∧ (let out := get_todays_transactions w in
     open_conns out.2 = open_conns w ∧ is_ok out.1 = true
     ∧ store out.2 = store w).
Proof.
  intros c0. split_and!.
  - rewrite get_db_unfold. fold c0. by destruct (body c0) as [[a|e] c].
  - apply get_db_sessions.
  - rewrite get_db_unfold. fold c0. by destruct (body c0) as [[a|e] c].
  - rewrite get_db_unfold. fold c0. by destruct (body c0) as [[a|e] c].
  - intros account_id name currency balance available balance_date out.
    subst out. rewrite update_accounts_table_unfold.
    unfold sql_upsert_account.
    by destruct (pg_text account_id), (pg_timestamp balance_date).
  - intros account_id balance available balance_date out.
    subst out. rewrite update_account_snapshots_table_unfold.
    unfold sql_upsert_snapshot.
    destruct (pg_text account_id), (pg_timestamp balance_date); try done.
    by destruct (_ || _).
  - intros account_id txns out.
    subst out. rewrite update_transactions_table_unfold. fold c0.
    by destruct (upsert_transactions _ _ _ _) as [[n|e] c].
  - done.
Qed.

(** C6. When the records before one go through and that one fails, to
    parse ([transaction_params_of] raises) or to insert (the statement
    raises), [update_transactions_table] raises the same exception to its
    caller, and the tables are as they were before the call: no record of
    the batch is persisted, those that had gone through included. *)
Theorem transaction_batch_fails_together account_id
    (before : list (gmap string (pyval float)))
    (bad : gmap string (pyval float))
    (after : list (gmap string (pyval float)))
    (w : world float) (n : nat) (c : conn float) (e : exn) :
  upsert_transactions account_id before 0%nat (connect w).1 = (Ok n, c) →
  (upsert_transaction account_id bad c).1 = Raise e →
  let out := update_transactions_table account_id (before ++ bad :: after) w
  in out.1 = Raise e ∧ store out.2 = store w
     ∧ open_conns out.2 = open_conns w.
Proof.
  intros Hbefore Hbad out. subst out.
  rewrite update_transactions_table_unfold, upsert_transactions_app, Hbefore.
  simpl. unfold m_bind.
  destruct (upsert_transaction account_id bad c) as [[m|e'] c1];
    simpl in *; [done|].
  by inversion Hbad.
Qed.
End unit_of_work.

Lemma transaction_batch_fails_together_witness :
  let batch := [sample_txn "t1" 5 1 100; txn_without_amount "t2";
                sample_txn "t3" 7 0 200] in
  let out := update_transactions_table (PyStr "A") batch world_with_A in
  out.1 = Raise (KeyError "amount")
  ∧ store out.2 = store world_with_A
  ∧ open_conns out.2 = open_conns world_with_A.
Proof.
  intros batch out.
  eapply (transaction_batch_fails_together (PyStr "A")
            [sample_txn "t1" 5 1 100] (txn_without_amount "t2")
            [sample_txn "t3" 7 0 200] world_with_A).
  - vm_compute. reflexivity.
  - vm_compute. reflexivity.
Defined.

(** ** The account and snapshot upserts *)

Section account_snapshot_facts.
Context {float : Type} `{!PyFloat float} `{!Postgres float}.

Lemma account_conflict_iff (k : string) (r : account_row float) :
  account_conflict k r = true ↔ a_id r = k.
Proof. unfold account_conflict. apply bool_decide_eq_true. Qed.

Lemma snapshot_conflict_iff (k : string) (ts : Z) (r : snapshot_row float) :
  snapshot_conflict k ts r = true ↔ snapshot_key r = (k, ts).
Proof.
  unfold snapshot_conflict, snapshot_key.
  rewrite andb_true_iff, !bool_decide_eq_true. split.
  - by intros [-> ->].
  - by intros [= -> ->].
Qed.

Lemma transaction_conflict_iff (k : string) (r : transaction_row float) :
  transaction_conflict k r = true ↔ t_id r = k.
Proof. unfold transaction_conflict. apply bool_decide_eq_true. Qed.

(** The two calls, once the server accepts their parameters. *)
Lemma update_accounts_table_ok account_id name currency balance available
    balance_date (k : string) (ts : Z) (w : world float) :
  pg_text account_id = Some k →
  pg_timestamp balance_date = Some ts →
  update_accounts_table account_id name currency balance available
      balance_date w =
    (Ok 1%nat,
     session_over w
       {| accounts :=
            upsert (account_conflict k)
              (account_update name balance available ts
                 (pg_now (sessions w)))
              (account_insert k name currency balance available ts
                 (pg_now (sessions w)))
              (accounts (store w));
          account_snapshots := account_snapshots (store w);
          transactions := transactions (store w) |}).
Proof.
  intros Hk Hts. rewrite update_accounts_table_unfold.
  unfold sql_upsert_account. by rewrite Hk, Hts.
Qed.

Lemma update_account_snapshots_table_ok account_id balance available
    balance_date (k : string) (ts : Z) (w : world float) :
  pg_text account_id = Some k →
  pg_timestamp balance_date = Some ts →
  account_exists k (store w) = true →
  update_account_snapshots_table account_id balance available
      balance_date w =
    (Ok 1%nat,
     session_over w
       {| accounts := accounts (store w);
          account_snapshots :=
            upsert (snapshot_conflict k ts)
              (snapshot_update balance available (pg_now (sessions w)))
              (snapshot_insert k balance available ts
                 (pg_now (sessions w)))
              (account_snapshots (store w));
          transactions := transactions (store w) |}).
Proof.
  intros Hk Hts Hacct. rewrite update_account_snapshots_table_unfold.
  unfold sql_upsert_snapshot. by rewrite Hk, Hts, Hacct, orb_true_r.
Qed.

(** C2. What [update_accounts_table] does to an account that already
    has its row: the call returns 1, the table keeps its number of rows,
    and the row of that id now holds the new name, balance, available
    balance and balance date and is stamped with the transaction's
    [NOW()]; its currency is the one stored before, not the one passed
    in. *)
Theorem update_accounts_table_on_conflict
    (account_id name currency : pyval float) (balance available : float)
    (balance_date : pyval float) (k : string) (ts : Z)
    (old : account_row float) (w : world float) :
  pg_text account_id = Some k →
  pg_timestamp balance_date = Some ts →
  accounts_with_id k (store w) = [old] →
  let out := update_accounts_table account_id name currency balance
               available balance_date w in
  out.1 = Ok 1%nat
  ∧ length (accounts (store out.2)) = length (accounts (store w))
  ∧ accounts_with_id k (store out.2) =
      [{| a_id := k; a_name := name; a_currency := a_currency old;
          a_balance := balance; a_available_balance := available;
          a_balance_date := ts;
          a_updated_at := Some (pg_now (sessions w)) |}].
Proof.
  intros Hk Hts Hold out. subst out.
  rewrite (update_accounts_table_ok _ _ _ _ _ _ k ts) by done.
  unfold accounts_with_id in *. simpl.
  assert (a_id old = k) as Hid.
  { assert (old ∈ filter (λ r, a_id r = k) (accounts (store w))) as Hin
      by (rewrite Hold; apply list_elem_of_here).
    by apply list_elem_of_filter in Hin as [? _]. }
  split_and!.
  - done.
  - apply upsert_conflict_length.
    eapply (existsb_filter_cons _ (λ r, a_id r = k)); [|done].
    apply account_conflict_iff.
  - rewrite (upsert_filter_key _ _ _ (λ r, a_id r = k)).
    + rewrite Hold. unfold account_update. by rewrite Hid.
    + apply account_conflict_iff.
    + done.
    + done.
Qed.

Lemma sql_upsert_snapshot_keys account_id balance available balance_date
    now (d d' : db float) n :
  sql_upsert_snapshot account_id balance available balance_date now d
    = Ok (n, d') →
  NoDup (snapshot_keys d) → NoDup (snapshot_keys d').
Proof.
  unfold sql_upsert_snapshot.
  destruct (pg_text account_id) as [k|]; [|done].
  destruct (pg_timestamp balance_date) as [ts|]; [|done].
  destruct (_ || _); [|done].
  intros [= <- <-] Hnodup. unfold snapshot_keys; simpl.
  apply (upsert_keys_NoDup _ _ _ snapshot_key (k, ts)); try done.
  apply snapshot_conflict_iff.
Qed.

Lemma snapshot_upserts_keys calls (w : world float) :
  NoDup (snapshot_keys (store w)) →
  NoDup (snapshot_keys (store (snapshot_upserts calls w))).
Proof.
  revert w. induction calls as [|[[[id b] a] bd] calls IH]; intros w Hw.
  - done.
  - simpl. apply IH. rewrite update_account_snapshots_table_unfold.
    destruct (sql_upsert_snapshot id b a bd _ _) as [[n d]|e] eqn:Hsql.
    + simpl. by eapply sql_upsert_snapshot_keys.
    + done.
Qed.

(** One snapshot upsert, pair by pair: the pair written has one row,
    with the balances of the call; the rows of the other pairs are the
    ones that were there. *)
Lemma update_account_snapshots_table_at account_id balance available
    balance_date (k : string) (ts : Z) (w : world float) :
  pg_text account_id = Some k →
  pg_timestamp balance_date = Some ts →
  account_exists k (store w) = true →
  NoDup (snapshot_keys (store w)) →
  let w' := (update_account_snapshots_table account_id balance available
               balance_date w).2 in
  snapshots_at k ts (store w') =
    [{| s_account_id := k; s_balance := balance;
        s_available_balance := available; s_balance_date := ts;
        s_snapshot_taken_at :=
          snapshot_stamp k ts (pg_now (sessions w)) (store w) |}]
  ∧ (∀ k' ts', (k', ts') ≠ (k, ts) →
       snapshots_at k' ts' (store w') = snapshots_at k' ts' (store w))
  ∧ (snapshots_at k ts (store w) = [] →
       account_snapshots (store w') =
         account_snapshots (store w)
         ++ [snapshot_insert k balance available ts
               (pg_now (sessions w))])
  ∧ sessions w' = S (sessions w)
  ∧ accounts (store w') = accounts (store w)
  ∧ NoDup (snapshot_keys (store w')).
Proof.
  intros Hk Hts Hacct Hnodup w'. subst w'.
  rewrite (update_account_snapshots_table_ok _ _ _ _ k ts) by done.
  unfold snapshot_stamp, snapshots_at. simpl.
  split_and!.
  - rewrite (upsert_filter_key _ _ _ (λ r, snapshot_key r = (k, ts)));
      [|apply snapshot_conflict_iff|done|done].
    destruct (filter _ (account_snapshots (store w)))
      as [|old [|y others]] eqn:Hold.
    + done.
    + assert (old ∈ filter (λ r, snapshot_key r = (k, ts))
                      (account_snapshots (store w))) as Hin
        by (rewrite Hold; apply list_elem_of_here).
      apply list_elem_of_filter in Hin as [[= Hid Hdate] _].
      unfold snapshot_update. by rewrite Hid, Hdate.
    + by destruct (filter_key_unique snapshot_key _ _ _ _ _ Hnodup Hold).
  - intros k' ts' Hne. apply upsert_filter_other.
    + intros r Hr%snapshot_conflict_iff. congruence.
    + intros r Hr%snapshot_conflict_iff.
      change (snapshot_key r ≠ (k', ts')). congruence.
    + change ((k, ts) ≠ (k', ts')). congruence.
  - intros Hnone. apply upsert_fresh.
    apply (existsb_filter_nil _ (λ r, snapshot_key r = (k, ts))); [|done].
    apply snapshot_conflict_iff.
  - done.
  - done.
  - unfold snapshot_keys; simpl.
    apply (upsert_keys_NoDup _ _ _ snapshot_key (k, ts)); try done.
    apply snapshot_conflict_iff.
Qed.

(** C3. Under the key constraint of [account_snapshots], for every
    state of the tables, whatever snapshots the accounts already have:
    over any sequence of [update_account_snapshots_table] calls the pairs
    (account id, balance date) of the table stay pairwise distinct.  For
    every account that has its row, two upserts with balance dates that
    denote distinct instants leave one row for each of the two pairs,
    with the balances of its call, and leave the rows of all other pairs
    (the earlier points of the series included) as they were; when
    neither pair had a row, the table is the earlier rows followed by the
    two new ones.  Two upserts with the same instant leave one row for
    the pair, which holds the balances of the second call and is stamped
    by it. *)
Theorem snapshot_time_series (w : world float) :
  NoDup (snapshot_keys (store w)) →
  (∀ calls, NoDup (snapshot_keys (store (snapshot_upserts calls w))))
  ∧ (∀ (account_id d1 d2 : pyval float) (b1 a1 b2 a2 : float)
       (k : string) (t1 t2 : Z),
       pg_text account_id = Some k →
       pg_timestamp d1 = Some t1 →
       pg_timestamp d2 = Some t2 →
       account_exists k (store w) = true →
       let w1 := (update_account_snapshots_table account_id b1 a1 d1 w).2
       in
       let w2 := (update_account_snapshots_table account_id b2 a2 d2 w1).2
       in
       (t1 ≠ t2 →
          snapshots_at k t1 (store w2) =
            [{| s_account_id := k; s_balance := b1;
                s_available_balance := a1; s_balance_date := t1;
                s_snapshot_taken_at :=
                  snapshot_stamp k t1 (pg_now (sessions w)) (store w) |}]
          ∧ snapshots_at k t2 (store w2) =
              [{| s_account_id := k; s_balance := b2;
                  s_available_balance := a2; s_balance_date := t2;
                  s_snapshot_taken_at :=
                    snapshot_stamp k t2 (pg_now (S (sessions w)))
                      (store w) |}]
          ∧ (∀ k' t', (k', t') ≠ (k, t1) → (k', t') ≠ (k, t2) →
               snapshots_at k' t' (store w2)
               = snapshots_at k' t' (store w))
          ∧ (snapshots_at k t1 (store w) = [] →
             snapshots_at k t2 (store w) = [] →
             account_snapshots (store w2) =
               account_snapshots (store w)
               ++ [{| s_account_id := k; s_balance := b1;
                      s_available_balance := a1; s_balance_date := t1;
                      s_snapshot_taken_at :=
                        pg_default_snapshot_taken_at
                          (pg_now (sessions w)) |};
                   {| s_account_id := k; s_balance := b2;
                      s_available_balance := a2; s_balance_date := t2;
                      s_snapshot_taken_at :=
                        pg_default_snapshot_taken_at
                          (pg_now (S (sessions w))) |}]))
       ∧ (t1 = t2 →
            snapshots_at k t1 (store w2) =
              [{| s_account_id := k; s_balance := b2;
                  s_available_balance := a2; s_balance_date := t1;
                  s_snapshot_taken_at := Some (pg_now (S (sessions w))) |}]
            ∧ (∀ k' t', (k', t') ≠ (k, t1) →
                 snapshots_at k' t' (store w2)
                 = snapshots_at k' t' (store w))
            ∧ (snapshots_at k t1 (store w) = [] →
               account_snapshots (store w2) =
                 account_snapshots (store w)
                 ++ [{| s_account_id := k; s_balance := b2;
                        s_available_balance := a2; s_balance_date := t1;
                        s_snapshot_taken_at :=
                          Some (pg_now (S (sessions w))) |}]))).
Proof.
  intros Hnodup. split; [intros calls; by apply snapshot_upserts_keys|].
  intros account_id d1 d2 b1 a1 b2 a2 k t1 t2 Hk H1 H2 Hacct w1 w2.
  pose proof (update_account_snapshots_table_at account_id b1 a1 d1 k t1 w
                Hk H1 Hacct Hnodup) as Hstep1.
  cbv zeta in Hstep1. fold w1 in Hstep1.
  destruct Hstep1 as (Hat1 & Hother1 & Hfresh1 & Hs1 & Hacc1 & Hnodup1).
  assert (account_exists k (store w1) = true) as Hacct1
    by (unfold account_exists; by rewrite Hacc1).
  pose proof (update_account_snapshots_table_at account_id b2 a2 d2 k t2 w1
                Hk H2 Hacct1 Hnodup1) as Hstep2.
  cbv zeta in Hstep2. fold w2 in Hstep2.
  destruct Hstep2 as (Hat2 & Hother2 & Hfresh2 & _ & _ & _).
  split; intros Ht.
  - split_and!.
    + rewrite Hother2 by congruence. exact Hat1.
    + rewrite Hat2. unfold snapshot_stamp.
      by rewrite Hs1, (Hother1 k t2) by congruence.
    + intros k' t' Hne1 Hne2. by rewrite Hother2, Hother1.
    + intros Hnone1 Hnone2.
      rewrite Hfresh2 by (by rewrite Hother1 by congruence).
      by rewrite (Hfresh1 Hnone1), Hs1, <-app_assoc.
  - subst t2. split_and!.
    + rewrite Hat2. unfold snapshot_stamp. by rewrite Hat1, Hs1.
    + intros k' t' Hne. by rewrite Hother2, Hother1.
    + intros Hnone. subst w2.
      rewrite (update_account_snapshots_table_ok _ _ _ _ k t1) by done.
      simpl. rewrite (Hfresh1 Hnone), Hs1.
      rewrite upsert_app_fresh.
      * simpl. unfold snapshot_conflict; simpl.
        by rewrite !bool_decide_eq_true_2.
      * apply (existsb_filter_nil _ (λ r, snapshot_key r = (k, t1)));
          [|done].
        apply snapshot_conflict_iff.
Qed.
End account_snapshot_facts.

Lemma update_accounts_table_on_conflict_witness :
  let out := update_accounts_table (PyStr "A") (PyStr "Main") (PyStr "EUR")
               150 140 (PyInt 172800) world_with_A in
  out.1 = Ok 1%nat
  ∧ length (accounts (store out.2)) = 1%nat
  ∧ accounts_with_id "A" (store out.2) =
      [{| a_id := "A"; a_name := PyStr "Main"; a_currency := PyStr "USD";
          a_balance := 150; a_available_balance := 140;
          a_balance_date := 172800; a_updated_at := Some 200002 |}].
Proof.
  exact (update_accounts_table_on_conflict (PyStr "A") (PyStr "Main")
           (PyStr "EUR") 150 140 (PyInt 172800) "A" 172800
           {| a_id := "A"; a_name := PyStr "Checking";
              a_currency := PyStr "USD"; a_balance := 100;
              a_available_balance := 90; a_balance_date := 86400;
              a_updated_at := Some 200000 |} world_with_A
           eq_refl eq_refl eq_refl).
Defined.

Lemma snapshot_time_series_witness :
  let w := world_with_A in
  let day1 := (update_account_snapshots_table (PyStr "A") 150 140
                 (PyInt 86400) w).2 in
  let day2 := (update_account_snapshots_table (PyStr "A") 170 160
                 (PyInt 172800) day1).2 in
  let day1_again := (update_account_snapshots_table (PyStr "A") 180 175
                       (PyInt 86400) day1).2 in
  snapshots_at "A" 86400 (store w) =
    [{| s_account_id := "A"; s_balance := 100;
        s_available_balance := 90; s_balance_date := 86400;
        s_snapshot_taken_at := Some 200001 |}]
  ∧ NoDup (snapshot_keys (store w))
  ∧ snapshots_at "A" 86400 (store day2) =
      [{| s_account_id := "A"; s_balance := 150;
          s_available_balance := 140; s_balance_date := 86400;
          s_snapshot_taken_at := Some 200002 |}]
  ∧ snapshots_at "A" 172800 (store day2) =
      [{| s_account_id := "A"; s_balance := 170;
          s_available_balance := 160; s_balance_date := 172800;
          s_snapshot_taken_at := Some 200003 |}]
  ∧ snapshots_at "A" 86400 (store day1_again) =
      [{| s_account_id := "A"; s_balance := 180;
          s_available_balance := 175; s_balance_date := 86400;
          s_snapshot_taken_at := Some 200003 |}]
  ∧ NoDup (snapshot_keys
             (store (snapshot_upserts
                       [(PyStr "A", 150, 140, PyInt 86400);
                        (PyStr "A", 180, 175, PyInt 86400);
                        (PyStr "A", 170, 160, PyInt 172800)] w)))
  ∧ account_snapshots
      (store (update_account_snapshots_table (PyStr "A") 150 140
                (PyInt 259200)
                (update_account_snapshots_table (PyStr "A") 100 90
                   (PyInt 172800) world_with_account_row).2).2) =
      [{| s_account_id := "A"; s_balance := 100;
          s_available_balance := 90; s_balance_date := 172800;
          s_snapshot_taken_at := Some 200001 |};
       {| s_account_id := "A"; s_balance := 150;
          s_available_balance := 140; s_balance_date := 259200;
          s_snapshot_taken_at := Some 200002 |}].
Proof.
  intros w day1 day2 day1_again.
  assert (NoDup (snapshot_keys (store w))) as Hnodup.
  { apply (bool_decide_unpack _). vm_compute. exact I. }
  assert (snapshot_stamp "A" 86400 (pg_now (sessions w)) (store w)
          = Some 200002) as Hstamp1 by (vm_compute; reflexivity).
  assert (snapshot_stamp "A" 172800 (pg_now (S (sessions w))) (store w)
          = Some 200003) as Hstamp2 by (vm_compute; reflexivity).
  assert (pg_now (S (sessions w)) = 200003) as Hnow
    by (vm_compute; reflexivity).
  destruct (snapshot_time_series w Hnodup) as [Hseries Hpair].
  destruct (Hpair (PyStr "A") (PyInt 86400) (PyInt 172800) 150 140 170 160
              "A" 86400 172800 eq_refl eq_refl eq_refl
              ltac:(vm_compute; reflexivity)) as [Hdistinct _].
  destruct (Hdistinct ltac:(discriminate)) as (Hrow1 & Hrow2 & _ & _).
  destruct (Hpair (PyStr "A") (PyInt 86400) (PyInt 86400) 150 140 180 175
              "A" 86400 86400 eq_refl eq_refl eq_refl
              ltac:(vm_compute; reflexivity)) as [_ Hsame].
  destruct (Hsame eq_refl) as (Hrow & _ & _).
  rewrite Hstamp1 in Hrow1. rewrite Hstamp2 in Hrow2. rewrite Hnow in Hrow.
  split_and!.
  - vm_compute. reflexivity.
  - exact Hnodup.
  - exact Hrow1.
  - exact Hrow2.
  - exact Hrow.
  - apply Hseries.
  - destruct (snapshot_time_series world_with_account_row NoDup_nil_2)
      as [_ Hfresh].
    destruct (Hfresh (PyStr "A") (PyInt 172800) (PyInt 259200) 100 90 150
                140 "A" 172800 259200 eq_refl eq_refl eq_refl eq_refl)
      as [Hnew _].
    destruct (Hnew ltac:(discriminate)) as (_ & _ & _ & Htable).
    exact (Htable eq_refl eq_refl).
Defined.

(** ** The transaction batch *)

Section transaction_facts.
Context {float : Type} `{!PyFloat float} `{!Postgres float}.

Abbreviation dict := (gmap string (pyval float)).

(** What a parameter tuple is made of, when Python builds one. *)
Lemma transaction_params_of_ok account_id (txn : dict) p :
  transaction_params_of account_id txn = Ok p →
  ∃ amount id posted transacted_at,
    txn !! "amount" = Some amount ∧ py_float amount = Ok (p_amount p)
    ∧ txn !! "id" = Some id ∧ p_id p = id
    ∧ txn !! "posted" = Some posted ∧ p_posted p = py_eq_int posted 1
    ∧ txn !! "transacted_at" = Some transacted_at
    ∧ p_transacted_at p = transacted_at
    ∧ p_account_id p = account_id
    ∧ p_description p = dict_get txn "description" (PyStr "")
    ∧ p_payee p = dict_get txn "payee" (PyStr "")
    ∧ p_memo p = dict_get txn "memo" (PyStr "")
    ∧ p_pending p = dict_get txn "pending" (PyBool false).
Proof.
  unfold transaction_params_of, getitem, rbind.
  destruct (txn !! "amount") as [amount|]; [|done].
  destruct (py_float amount) as [f|] eqn:Hf; [|done].
  destruct (txn !! "id") as [id|]; [|done].
  destruct (txn !! "posted") as [posted|]; [|done].
  destruct (txn !! "transacted_at") as [ts|]; [|done].
  intros [= <-]. exists amount, id, posted, ts. simpl.
  by split_and!.
Qed.

(** A record without one of its four required keys builds no tuple. *)
Lemma transaction_params_of_missing account_id (txn : dict) key :
  key ∈ ["amount"; "id"; "posted"; "transacted_at"] →
  txn !! key = None →
  is_ok (transaction_params_of account_id txn) = false.
Proof.
  intros Hkey Hnone.
  destruct (transaction_params_of account_id txn) as [p|e] eqn:Hp; [|done].
  apply transaction_params_of_ok in Hp
    as (amount & id & posted & ts & Ha & _ & Hi & _ & Hpo & _ & Ht & _).
  repeat (apply elem_of_cons in Hkey as [->|Hkey]; [congruence|]).
  by apply not_elem_of_nil in Hkey.
Qed.

Lemma transaction_params_of_key account_id (txn : dict) p :
  transaction_params_of account_id txn = Ok p →
  txn_key txn = pg_text (p_id p).
Proof.
  intros (amount & id & posted & ts & _ & _ & Hi & Hid & _)
    %transaction_params_of_ok.
  unfold txn_key. rewrite Hi. simpl. by rewrite Hid.
Qed.

(** One iteration that goes through wrote one row, under the record's
    key. *)
Lemma upsert_transaction_ok account_id (txn : dict) (c c' : conn float) m :
  upsert_transaction account_id txn c = (Ok m, c') →
  ∃ p k acct ts,
    transaction_params_of account_id txn = Ok p
    ∧ pg_text (p_id p) = Some k
    ∧ pg_text (p_account_id p) = Some acct
    ∧ pg_timestamp (p_transacted_at p) = Some ts
    ∧ m = 1%nat
    ∧ c' = {| c_durable := c_durable c;
              c_work :=
                {| accounts := accounts (c_work c);
                   account_snapshots := account_snapshots (c_work c);
                   transactions :=
                     upsert (transaction_conflict k)
                       (transaction_update p ts (c_now c))
                       (transaction_insert k acct p ts (c_now c))
                       (transactions (c_work c)) |};
              c_now := c_now c |}.
Proof.
  unfold upsert_transaction, m_bind, m_lift, execute, sql_upsert_transaction.
  destruct (transaction_params_of account_id txn) as [p|e]; [|done].
  destruct (pg_text (p_id p)) as [k|] eqn:Hk; [|done].
  destruct (pg_text (p_account_id p)) as [acct|] eqn:Hacct; [|done].
  destruct (pg_timestamp (p_transacted_at p)) as [ts|] eqn:Hts; [|done].
  destruct (_ || _); [|done].
  intros [= <- <-]. by exists p, k, acct, ts.
Qed.

(** The primary key of [transactions] survives an iteration and the
    loop. *)
Lemma upsert_transaction_keys account_id (txn : dict) (c : conn float) :
  NoDup (transaction_keys (c_work c)) →
  NoDup (transaction_keys (c_work (upsert_transaction account_id txn c).2)).
Proof.
  intros Hnodup.
  destruct (upsert_transaction account_id txn c) as [[m|e] c'] eqn:Hstep.
  - apply upsert_transaction_ok in Hstep
      as (p & k & acct & ts & _ & _ & _ & _ & _ & ->).
    unfold transaction_keys; simpl.
    apply (upsert_keys_NoDup _ _ _ t_id k); try done.
    apply transaction_conflict_iff.
  - revert Hstep.
    unfold upsert_transaction, m_bind, m_lift, execute.
    destruct (transaction_params_of account_id txn) as [p|e']; simpl.
    + destruct (sql_upsert_transaction p _ _) as [[n d]|e'']; [done|].
      by intros [= _ <-].
    + by intros [= _ <-].
Qed.

Lemma upsert_transactions_keys account_id (txns : list dict) count
    (c : conn float) :
  NoDup (transaction_keys (c_work c)) →
  NoDup (transaction_keys
           (c_work (upsert_transactions account_id txns count c).2)).
Proof.
  revert count c. induction txns as [|txn txns IH]; intros count c Hnodup.
  - done.
  - simpl. unfold m_bind.
    pose proof (upsert_transaction_keys account_id txn c Hnodup) as Hstep.
    destruct (upsert_transaction account_id txn c) as [[m|e] c']; simpl in *.
    + by apply IH.
    + done.
Qed.

(** An iteration leaves the rows of every other id as they are. *)
Lemma upsert_transaction_other account_id (txn : dict) (c c' : conn float)
    m (k : string) :
  upsert_transaction account_id txn c = (Ok m, c') →
  txn_key txn ≠ Some k →
  transactions_with_id k (c_work c') = transactions_with_id k (c_work c).
Proof.
  intros (p & k' & acct & ts & Hp & Hk' & _ & _ & _ & ->)
    %upsert_transaction_ok Hne.
  rewrite (transaction_params_of_key _ _ _ Hp), Hk' in Hne.
  unfold transactions_with_id; simpl.
  apply upsert_filter_other.
  - intros r Hr%transaction_conflict_iff. congruence.
  - intros r Hr%transaction_conflict_iff. simpl. congruence.
  - simpl. congruence.
Qed.

Lemma upsert_transactions_other account_id (txns : list dict) count
    (c c' : conn float) n (k : string) :
  upsert_transactions account_id txns count c = (Ok n, c') →
  Forall (λ later, txn_key later ≠ Some k) txns →
  transactions_with_id k (c_work c') = transactions_with_id k (c_work c).
Proof.
  revert count c. induction txns as [|txn txns IH]; intros count c; simpl.
  - by intros [= _ <-].
  - unfold m_bind.
    destruct (upsert_transaction account_id txn c) as [[m|e] c1] eqn:Hstep;
      [|done].
    intros Hrest [Hne Hall]%Forall_cons.
    rewrite (IH _ _ Hrest Hall).
    by eapply upsert_transaction_other.
Qed.

(** Under a primary key an id has at most one row. *)
Lemma transactions_with_id_unique (k : string)
    (rows : list (transaction_row float)) x y others :
  NoDup (t_id <$> rows) →
  filter (λ r, t_id r = k) rows = x :: y :: others → False.
Proof. apply filter_key_unique. Qed.

(** A batch that goes through leaves, for each record that no later
    record of the batch overwrites, exactly one row under the record's
    id, holding the parameters Python computed from the record. *)
Lemma update_transactions_table_row account_id (before : list dict)
    (txn : dict) (after : list dict) (w : world float) :
  NoDup (transaction_keys (store w)) →
  Forall (λ later, txn_key later ≠ txn_key txn) after →
  let out := update_transactions_table account_id (before ++ txn :: after) w
  in
  is_ok out.1 = true →
  ∃ p k ts row,
    transaction_params_of account_id txn = Ok p
    ∧ txn_key txn = Some k
    ∧ pg_timestamp (p_transacted_at p) = Some ts
    ∧ transactions_with_id k (store out.2) = [row]
    ∧ t_posted row = p_posted p ∧ t_amount row = p_amount p
    ∧ t_description row = p_description p ∧ t_payee row = p_payee p
    ∧ t_memo row = p_memo p ∧ t_transacted_at row = ts
    ∧ t_pending row = p_pending p.
Proof.
  intros Hnodup Hlater out. subst out.
  rewrite update_transactions_table_unfold, upsert_transactions_app.
  pose proof (upsert_transactions_keys account_id before 0%nat (connect w).1
                Hnodup) as Hnodup1.
  destruct (upsert_transactions account_id before 0%nat (connect w).1)
    as [[n1|e] c1]; [|done].
  simpl in Hnodup1. simpl. unfold m_bind.
  destruct (upsert_transaction account_id txn c1) as [[m|e] c2] eqn:Hstep;
    [|done].
  destruct (upsert_transactions account_id after (n1 + m) c2)
    as [[n|e] c3] eqn:Hafter; [|done].
  simpl. intros _.
  pose proof Hstep as (p & k & acct & ts & Hp & Hk & _ & Hts & _ & Hc2)
    %upsert_transaction_ok.
  assert (txn_key txn = Some k) as Hkey
    by by rewrite (transaction_params_of_key _ _ _ Hp).
  rewrite Hkey in Hlater.
  pose proof (upsert_transactions_other _ _ _ _ _ _ k Hafter Hlater)
    as Hsame.
  assert (transactions_with_id k (c_work c2) =
            match transactions_with_id k (c_work c1) with
            | [] => [transaction_insert k acct p ts (c_now c1)]
            | old :: others =>
                transaction_update p ts (c_now c1) old :: others
            end) as Hrows.
  { rewrite Hc2. unfold transactions_with_id; simpl.
    apply upsert_filter_key; [apply transaction_conflict_iff|done|done]. }
  destruct (transactions_with_id k (c_work c1)) as [|old [|y others]]
    eqn:Hold.
  - exists p, k, ts, (transaction_insert k acct p ts (c_now c1)).
    rewrite Hsame, Hrows. by split_and!.
  - exists p, k, ts, (transaction_update p ts (c_now c1) old).
    rewrite Hsame, Hrows. by split_and!.
  - by destruct (transactions_with_id_unique k _ _ _ _ Hnodup1 Hold).
Qed.

(** A batch that raises persists nothing. *)
Lemma update_transactions_table_raise account_id (txns : list dict)
    (w : world float) :
  is_ok (update_transactions_table account_id txns w).1 = false →
  store (update_transactions_table account_id txns w).2 = store w.
Proof.
  rewrite update_transactions_table_unfold.
  by destruct (upsert_transactions _ _ _ _) as [[n|e] c].
Qed.

(** A record that builds no parameter tuple makes its batch raise. *)
Lemma update_transactions_table_bad_record account_id (before : list dict)
    (txn : dict) (after : list dict) (w : world float) :
  is_ok (transaction_params_of account_id txn) = false →
  is_ok (update_transactions_table account_id (before ++ txn :: after) w).1
    = false.
Proof.
  intros Hbad.
  rewrite update_transactions_table_unfold, upsert_transactions_app.
  destruct (upsert_transactions account_id before 0%nat (connect w).1)
    as [[n1|e] c1]; [|done].
  simpl. unfold m_bind, upsert_transaction, m_bind, m_lift.
  by destruct (transaction_params_of account_id txn).
Qed.

(** Sending a key with the value that [txn.get] would default to is the
    same as leaving the key out. *)
Lemma transaction_params_of_default account_id (txn : dict) key dflt :
  (key, dflt) ∈ [("description", PyStr ""); ("payee", PyStr "");
                 ("memo", PyStr ""); ("pending", PyBool false)] →
  txn !! key = None →
  transaction_params_of account_id (<[key := dflt]> txn)
    = transaction_params_of account_id txn.
Proof.
  intros Hkey Hnone.
  unfold transaction_params_of, getitem, dict_get.
  repeat (apply elem_of_cons in Hkey as [[= -> ->]|Hkey];
    [rewrite ?lookup_insert_eq, ?lookup_insert_ne by done;
     by rewrite Hnone|]).
  by apply not_elem_of_nil in Hkey.
Qed.

Lemma update_transactions_table_default account_id (before : list dict)
    (txn : dict) (after : list dict) key dflt (w : world float) :
  (key, dflt) ∈ [("description", PyStr ""); ("payee", PyStr "");
                 ("memo", PyStr ""); ("pending", PyBool false)] →
  txn !! key = None →
  update_transactions_table account_id
      (before ++ <[key := dflt]> txn :: after) w
    = update_transactions_table account_id (before ++ txn :: after) w.
Proof.
  intros Hkey Hnone.
  rewrite !update_transactions_table_unfold, !upsert_transactions_app.
  destruct (upsert_transactions account_id before 0%nat (connect w).1)
    as [[n1|e] c1]; [|done].
  simpl. unfold m_bind, upsert_transaction, m_bind, m_lift.
  by rewrite (transaction_params_of_default _ _ _ _ Hkey Hnone).
Qed.
End transaction_facts.

Section persisted_fields.
Context {float : Type} `{!PyFloat float} `{!Postgres float}.

Abbreviation dict := (gmap string (pyval float)).

(** C4, as the code has it.  Take a table whose transaction ids are
    unique and a record of a batch that no later record of the batch
    overwrites.  When the batch goes through and the record carries a
    [posted] indicator, its one row has posted = true when the indicator
    equals 1 in Python's sense ([== 1]), and posted = false for 0 and
    for every other value.  A record without the indicator stores
    nothing: its batch raises and the tables stay as they were. *)
Theorem posted_flag_persisted account_id (before : list dict) (txn : dict)
    (after : list dict) (w : world float) :
  NoDup (transaction_keys (store w)) →
  Forall (λ later, txn_key later ≠ txn_key txn) after →
  let out := update_transactions_table account_id (before ++ txn :: after) w
  in
  match txn !! "posted" with
  | Some v =>
      is_ok out.1 = true →
      ∃ k row,
        txn_key txn = Some k
        ∧ transactions_with_id k (store out.2) = [row]
        ∧ t_posted row = py_eq_int v 1
        ∧ (v = PyInt 1 → t_posted row = true)
        ∧ (∀ z, z ≠ 1 → v = PyInt z → t_posted row = false)
        ∧ (∀ s, v = PyStr s → t_posted row = false)
        ∧ (v = PyNone → t_posted row = false)
  | None => is_ok out.1 = false ∧ store out.2 = store w
  end.
Proof.
  intros Hnodup Hlater out.
  destruct (txn !! "posted") as [v|] eqn:Hposted.
  - intros Hok.
    destruct (update_transactions_table_row account_id before txn after w
                Hnodup Hlater Hok)
      as (p & k & ts & row & Hp & Hk & _ & Hrows & Hpo & _).
    apply transaction_params_of_ok in Hp
      as (_ & _ & posted & _ & _ & _ & _ & _ & Hv & Hpp & _).
    assert (posted = v) as -> by congruence.
    exists k, row. rewrite Hpo, Hpp. split_and!; try done.
    + by intros ->.
    + intros z Hz ->. simpl. by apply Z.eqb_neq.
    + by intros s ->.
    + by intros ->.
  - assert (is_ok out.1 = false) as Hraise.
    { apply update_transactions_table_bad_record.
      apply (transaction_params_of_missing _ _ "posted"); [|done].
      set_solver. }
    split; [done|]. by apply update_transactions_table_raise.
Qed.

(** C8. Take a table whose transaction ids are unique and a record of
    a batch that no later record of the batch overwrites.  When the batch
    goes through, the record's one row holds the empty string in each of
    the columns [description], [payee] and [memo] whose key the record
    leaves out.  Leaving a key out raises nothing of its own: the call
    has the outcome, result and tables, of the call in which the record
    carries the key with the empty string. *)
Theorem omitted_text_fields_persist_empty account_id (before : list dict)
    (txn : dict) (after : list dict) (w : world float) :
  NoDup (transaction_keys (store w)) →
  Forall (λ later, txn_key later ≠ txn_key txn) after →
  let out := update_transactions_table account_id (before ++ txn :: after) w
  in
  (is_ok out.1 = true →
   ∃ k row,
     txn_key txn = Some k
     ∧ transactions_with_id k (store out.2) = [row]
     ∧ (txn !! "description" = None → t_description row = PyStr "")
     ∧ (txn !! "payee" = None → t_payee row = PyStr "")
     ∧ (txn !! "memo" = None → t_memo row = PyStr ""))
  ∧ (∀ key, key ∈ ["description"; "payee"; "memo"] → txn !! key = None →
       update_transactions_table account_id
         (before ++ <[key := PyStr ""]> txn :: after) w = out).
Proof.
  intros Hnodup Hlater out. split.
  - intros Hok.
    destruct (update_transactions_table_row account_id before txn after w
                Hnodup Hlater Hok)
      as (p & k & ts & row & Hp & Hk & _ & Hrows & _ & _ & Hd & Hpa & Hm & _).
    apply transaction_params_of_ok in Hp
      as (_ & _ & _ & _ & _ & _ & _ & _ & _ & _ & _ & _ & _
          & Hpd & Hpp & Hpm & _).
    exists k, row. unfold dict_get in *.
    split_and!; try done.
    + intros Hnone. by rewrite Hd, Hpd, Hnone.
    + intros Hnone. by rewrite Hpa, Hpp, Hnone.
    + intros Hnone. by rewrite Hm, Hpm, Hnone.
  - intros key Hkey Hnone. subst out.
    apply update_transactions_table_default; [|done].
    apply elem_of_cons in Hkey as [->|Hkey]; [apply list_elem_of_here|].
    apply elem_of_cons in Hkey as [->|Hkey];
      [apply list_elem_of_further, list_elem_of_here|].
    apply list_elem_of_singleton in Hkey as ->.
    do 2 apply list_elem_of_further. apply list_elem_of_here.
Qed.

(** C10. Take a table whose transaction ids are unique and a record of
    a batch that leaves out [pending] and that no later record of the
    batch overwrites.  When the batch goes through, the record's one row
    has pending = false.  Leaving the key out raises nothing of its own:
    the call has the outcome, result and tables, of the call in which the
    record carries [pending: false]. *)
Theorem omitted_pending_persists_false account_id (before : list dict)
    (txn : dict) (after : list dict) (w : world float) :
  NoDup (transaction_keys (store w)) →
  Forall (λ later, txn_key later ≠ txn_key txn) after →
  txn !! "pending" = None →
  let out := update_transactions_table account_id (before ++ txn :: after) w
  in
  (is_ok out.1 = true →
   ∃ k row,
     txn_key txn = Some k
     ∧ transactions_with_id k (store out.2) = [row]
     ∧ t_pending row = PyBool false)
  ∧ update_transactions_table account_id
      (before ++ <["pending" := PyBool false]> txn :: after) w = out.
Proof.
  intros Hnodup Hlater Hnone out. split.
  - intros Hok.
    destruct (update_transactions_table_row account_id before txn after w
                Hnodup Hlater Hok)
      as (p & k & ts & row & Hp & Hk & _ & Hrows & _ & _ & _ & _ & _ & _
          & Hpe).
    apply transaction_params_of_ok in Hp
      as (_ & _ & _ & _ & _ & _ & _ & _ & _ & _ & _ & _ & _
          & _ & _ & _ & Hpp).
    exists k, row. unfold dict_get in *.
    split_and!; try done. by rewrite Hpe, Hpp, Hnone.
  - subst out. apply update_transactions_table_default; [|done].
    set_solver.
Qed.
End persisted_fields.

(** C4 does not hold for an absent indicator: the record is not stored
    with posted = false, it is not stored at all. *)
Lemma absent_posted_is_not_persisted :
  let out := update_transactions_table (PyStr "A")
               [txn_without_posted "t1"] world_with_A in
  out.1 = Raise (KeyError "posted")
  ∧ transactions_with_id "t1" (store out.2) = [].
Proof. by vm_compute. Qed.

Lemma posted_flag_persisted_witness :
  let batch := [sample_txn "t1" 5 1 100; sample_txn "t2" 7 0 200;
                sample_txn "t3" 9 1700000000 300] in
  let out := update_transactions_table (PyStr "A") batch world_with_A in
  (∃ row, transactions_with_id "t1" (store out.2) = [row]
          ∧ t_posted row = true)
  ∧ (∃ row, transactions_with_id "t2" (store out.2) = [row]
            ∧ t_posted row = false)
  ∧ (∃ row, transactions_with_id "t3" (store out.2) = [row]
            ∧ t_posted row = false)
  ∧ is_ok (update_transactions_table (PyStr "A")
             [sample_txn "t1" 5 1 100; txn_without_posted "t2"]
             world_with_A).1 = false.
Proof.
  assert (NoDup (transaction_keys (store world_with_A))) as Hkeys
    by apply NoDup_nil_2.
  split_and!.
  - destruct (posted_flag_persisted (PyStr "A") []
                (sample_txn "t1" 5 1 100)
                [sample_txn "t2" 7 0 200; sample_txn "t3" 9 1700000000 300]
                world_with_A Hkeys)
      as (k & row & [= <-] & Hrows & _ & Hone & _); [|done|].
    + repeat constructor; by vm_compute.
    + exists row. split; [done|]. by apply Hone.
  - destruct (posted_flag_persisted (PyStr "A") [sample_txn "t1" 5 1 100]
                (sample_txn "t2" 7 0 200)
                [sample_txn "t3" 9 1700000000 300]
                world_with_A Hkeys)
      as (k & row & [= <-] & Hrows & _ & _ & Hother & _); [|done|].
    + repeat constructor; by vm_compute.
    + exists row. split; [done|]. by apply (Hother 0).
  - destruct (posted_flag_persisted (PyStr "A")
                [sample_txn "t1" 5 1 100; sample_txn "t2" 7 0 200]
                (sample_txn "t3" 9 1700000000 300) []
                world_with_A Hkeys)
      as (k & row & [= <-] & Hrows & _ & _ & Hother & _); [|done|].
    + constructor.
    + exists row. split; [done|]. by apply (Hother 1700000000).
  - exact (proj1 (posted_flag_persisted (PyStr "A")
                    [sample_txn "t1" 5 1 100] (txn_without_posted "t2") []
                    world_with_A Hkeys (Forall_nil_2 _))).
Defined.

Lemma omitted_text_fields_persist_empty_witness :
  let out := update_transactions_table (PyStr "A")
               [sample_txn "t1" 5 1 100; sample_txn "t2" 7 0 200]
               world_with_A in
  ∃ row, transactions_with_id "t1" (store out.2) = [row]
         ∧ t_description row = PyStr "" ∧ t_payee row = PyStr ""
         ∧ t_memo row = PyStr "".
Proof.
  destruct (proj1 (omitted_text_fields_persist_empty (PyStr "A") []
                     (sample_txn "t1" 5 1 100) [sample_txn "t2" 7 0 200]
                     world_with_A NoDup_nil_2
                     ltac:(repeat constructor; by vm_compute))
              ltac:(by vm_compute))
    as (k & row & [= <-] & Hrows & Hd & Hp & Hm).
  exists row. split_and!; [done|by apply Hd|by apply Hp|by apply Hm].
Defined.

Lemma omitted_pending_persists_false_witness :
  let out := update_transactions_table (PyStr "A")
               [sample_txn "t1" 5 1 100; sample_txn "t2" 7 0 200]
               world_with_A in
  ∃ row, transactions_with_id "t2" (store out.2) = [row]
         ∧ t_pending row = PyBool false.
Proof.
  destruct (proj1 (omitted_pending_persists_false (PyStr "A")
                     [sample_txn "t1" 5 1 100] (sample_txn "t2" 7 0 200) []
                     world_with_A NoDup_nil_2 (Forall_nil_2 _) eq_refl)
              ltac:(by vm_compute))
    as (k & row & [= <-] & Hrows & Hpending).
  by exists row.
Defined.

(** ** The query *)

Section query_facts.
Context {float : Type} `{!PyFloat float} `{!Postgres float}.

Lemma later_first_transitive : Transitive (later_first (float := float)).
Proof. intros x y z. unfold later_first. lia. Qed.

Lemma later_first_total : Total (later_first (float := float)).
Proof. intros x y. unfold later_first. lia. Qed.

(** The join, one transaction at a time. *)
Lemma join_accounts_views now (accts : list (account_row float))
    (txns : list (transaction_row float)) :
  NoDup (a_id <$> accts) →
  (λ at_, view_of at_.1 at_.2) <$>
    filter (λ at_, on_previous_day now at_.2)
      (t ← txns; a ← filter (λ a, a_id a = t_account_id t) accts; [(a, t)])
  = omap (λ t, (λ a, view_of a t) <$>
                 head (filter (λ a, a_id a = t_account_id t) accts))
      (filter (on_previous_day now) txns).
Proof.
  intros Hnodup. induction txns as [|t txns IH]; [done|].
  rewrite bind_cons, filter_app, fmap_app, IH. clear IH.
  assert (∀ owners : list (account_row float),
            (λ at_, view_of at_.1 at_.2) <$>
              filter (λ at_ : account_row float * transaction_row float,
                        on_previous_day now at_.2)
                (a ← owners; [(a, t)])
            = if decide (on_previous_day now t)
              then (λ a, view_of a t) <$> owners else []) as Hone.
  { intros owners. induction owners as [|a owners IH]; csimpl.
    - by destruct (decide _).
    - destruct (decide (on_previous_day now t)) as [Hday|Hday].
      + rewrite filter_cons_True by done. csimpl. by rewrite IH.
      + by rewrite filter_cons_False. }
  rewrite Hone.
  destruct (decide (on_previous_day now t)) as [Hday|Hday].
  - rewrite filter_cons_True by done. csimpl.
    destruct (filter (λ a, a_id a = t_account_id t) accts)
      as [|a [|a' others]] eqn:Howners; csimpl; [done|done|].
    by destruct (filter_key_unique a_id _ _ _ _ _ Hnodup Howners).
  - by rewrite filter_cons_False.
Qed.

(** C5. [get_todays_transactions] returns, and changes nothing.  A
    record is in the list exactly when it is the seven columns of a
    transaction whose date ([DATE(transacted_at)]) is the day before the
    current date of the call, together with the name of an account whose
    id is the transaction's account id.  The list is ordered by
    transacted-at, most recent first.  Under the primary key of
    [accounts] the list holds, up to that order, one record for each such
    transaction that has its account. *)
Theorem get_todays_transactions_previous_day (w : world float) :
  let now := pg_now (sessions w) in
  ∃ views,
    get_todays_transactions w = (Ok views, session_over w (store w))
    ∧ (∀ v, v ∈ views ↔
         ∃ a t, a ∈ accounts (store w) ∧ t ∈ transactions (store w)
                ∧ a_id a = t_account_id t
                ∧ pg_date (t_transacted_at t) = pg_date now - 1
                ∧ v = {| v_account_name := a_name a;
                         v_amount := t_amount t;
                         v_description := t_description t;
                         v_payee := t_payee t;
                         v_memo := t_memo t;
                         v_transacted_at := t_transacted_at t;
                         v_pending := t_pending t |})
    ∧ StronglySorted newest_first views
    ∧ (NoDup (account_keys (store w)) →
       views ≡ₚ previous_day_views now (store w)).
Proof.
  intros now. exists (sql_select_previous_day now (store w)).
  split; [unfold get_todays_transactions; by rewrite get_db_unfold|].
  unfold sql_select_previous_day.
  split_and!.
  - intros v. rewrite list_elem_of_fmap. split.
    + intros ([a t] & -> & Hin).
      rewrite merge_sort_Permutation in Hin.
      apply list_elem_of_filter in Hin as [Hday Hin].
      unfold join_accounts in Hin.
      apply list_elem_of_bind in Hin as (t' & Hin & Ht').
      apply list_elem_of_bind in Hin as (a' & Hin & Ha').
      apply list_elem_of_singleton in Hin as [= -> ->].
      apply list_elem_of_filter in Ha' as [Hid Ha'].
      by exists a', t'.
    + intros (a & t & Ha & Ht & Hid & Hday & ->).
      exists (a, t). split; [done|].
      rewrite merge_sort_Permutation.
      apply list_elem_of_filter. split; [done|].
      unfold join_accounts.
      apply list_elem_of_bind. exists t. split; [|done].
      apply list_elem_of_bind. exists a. split.
      * apply list_elem_of_here.
      * by apply list_elem_of_filter.
  - apply (StronglySorted_fmap _ later_first); [done|].
    pose proof later_first_transitive. pose proof later_first_total.
    apply (StronglySorted_merge_sort later_first).
  - intros Hkeys. rewrite merge_sort_Permutation.
    unfold join_accounts, previous_day_views, owner.
    by rewrite (join_accounts_views now _ _ Hkeys).
Qed.
End query_facts.

(** The query on two accounts with one transaction of the previous day
    each: two records, each with its account's name, the later one
    first; the transaction of the current day is left out. *)
Example get_todays_transactions_two_accounts :
  (get_todays_transactions world_with_two_accounts).1 =
    Ok [{| v_account_name := PyStr "Savings"; v_amount := 7;
           v_description := PyStr ""; v_payee := PyStr "";
           v_memo := PyStr ""; v_transacted_at := 100000;
           v_pending := PyBool false |};
        {| v_account_name := PyStr "Checking"; v_amount := 5;
           v_description := PyStr ""; v_payee := PyStr "";
           v_memo := PyStr ""; v_transacted_at := 90000;
           v_pending := PyBool false |}].
Proof. by vm_compute. Qed.

(** ** The sync loop *)

Section sync_facts.
Context {float : Type} `{!PyFloat float} `{!Postgres float}.

Abbreviation dict := (gmap string (pyval float)).

(** The three calls of [sync_account_from_api] read the same payload. *)
Lemma account_args_ok (a : account_data float) id name currency balance
    available balance_date :
  account_args a = Ok (id, name, currency, balance, available, balance_date)
  → fields a !! "id" = Some id
    ∧ getitem (fields a) "id" = Ok id
    ∧ snapshot_args a = Ok (id, balance, available, balance_date).
Proof.
  unfold account_args, snapshot_args, getitem, rbind.
  destruct (fields a !! "id") as [id'|]; [|done].
  destruct (fields a !! "name") as [name'|]; [|done].
  destruct (fields a !! "currency") as [currency'|]; [|done].
  destruct (fields a !! "balance") as [balance_v|]; [|done].
  destruct (py_float balance_v) as [balance'|]; [|done].
  destruct (fields a !! "available-balance") as [available_v|]; [|done].
  destruct (py_float available_v) as [available'|]; [|done].
  destruct (fields a !! "balance-date") as [balance_date'|]; [|done].
  by intros [= -> -> -> -> -> ->].
Qed.

(** [sync_account_from_api], call by call. *)
Lemma sync_account_from_api_unfold (a : account_data float)
    (w : world float) :
  sync_account_from_api a w =
    match account_args a with
    | Raise e => (Raise e, w)
    | Ok (id, name, currency, balance, available, balance_date) =>
        match update_accounts_table id name currency balance available
                balance_date w with
        | (Raise e, w1) => (Raise e, w1)
        | (Ok _, w1) =>
            match update_account_snapshots_table id balance available
                    balance_date w1 with
            | (Raise e, w2) => (Raise e, w2)
            | (Ok _, w2) =>
                match nested_transactions a with
                | Some (txn :: rest) =>
                    match update_transactions_table id (txn :: rest) w2 with
                    | (Raise e, w3) => (Raise e, w3)
                    | (Ok _, w3) =>
                        (Ok (length (txn :: rest) + length (txn :: rest))%nat,
                         w3)
                    end
                | _ => (Ok 0%nat, w2)
                end
            end
        end
    end.
Proof.
  unfold sync_account_from_api, w_bind at 1, w_lift at 1.
  destruct (account_args a)
    as [[[[[[id name] currency] balance] available] balance_date]|e]
    eqn:Hargs; [|done].
  destruct (account_args_ok _ _ _ _ _ _ _ Hargs) as (_ & Hid & Hsnap).
  unfold w_bind at 1.
  destruct (update_accounts_table _ _ _ _ _ _ w) as [[n|e] w1]; [|done].
  unfold w_bind at 1, w_lift at 1. rewrite Hsnap.
  unfold w_bind at 1.
  destruct (update_account_snapshots_table _ _ _ _ w1) as [[n'|e] w2];
    [|done].
  destruct (nested_transactions a) as [[|txn rest]|]; [done| |done].
  unfold w_bind at 1, w_lift at 1. rewrite Hid.
  unfold w_bind, w_lift.
  by destruct (update_transactions_table _ _ w2) as [[n''|e] w3].
Qed.

(** The loop never touches [accounts] or [account_snapshots]. *)
Lemma upsert_transactions_tables account_id (txns : list dict) count
    (c : conn float) :
  accounts (c_work (upsert_transactions account_id txns count c).2)
    = accounts (c_work c)
  ∧ account_snapshots
      (c_work (upsert_transactions account_id txns count c).2)
    = account_snapshots (c_work c).
Proof.
  revert count c. induction txns as [|txn txns IH]; intros count c; simpl.
  - done.
  - unfold m_bind.
    destruct (upsert_transaction account_id txn c) as [[m|e] c1] eqn:Hstep.
    + apply upsert_transaction_ok in Hstep
        as (p & k & acct & ts & _ & _ & _ & _ & _ & ->).
      destruct (IH (count + m)%nat
                  {| c_durable := c_durable c;
                     c_work :=
                       {| accounts := accounts (c_work c);
                          account_snapshots := account_snapshots (c_work c);
                          transactions :=
                            upsert (transaction_conflict k)
                              (transaction_update p ts (c_now c))
                              (transaction_insert k acct p ts (c_now c))
                              (transactions (c_work c)) |};
                     c_now := c_now c |}) as [Ha Hs].
      by rewrite Ha, Hs.
    + revert Hstep.
      unfold upsert_transaction, m_bind, m_lift, execute.
      destruct (transaction_params_of account_id txn) as [p|e']; simpl.
      * destruct (sql_upsert_transaction p _ _) as [[n d]|e'']; [done|].
        by intros [= _ <-].
      * by intros [= _ <-].
Qed.

Lemma update_transactions_table_tables account_id (txns : list dict)
    (w : world float) :
  accounts (store (update_transactions_table account_id txns w).2)
    = accounts (store w)
  ∧ account_snapshots (store (update_transactions_table account_id txns w).2)
    = account_snapshots (store w).
Proof.
  rewrite update_transactions_table_unfold.
  pose proof (upsert_transactions_tables account_id txns 0%nat (connect w).1)
    as Htables.
  by destruct (upsert_transactions _ _ _ _) as [[n|e] c].
Qed.

(** No call removes an account row. *)
Lemma update_accounts_table_keeps account_id name currency balance
    available balance_date (w : world float) (k : string) :
  account_exists k (store w) = true →
  account_exists k
    (store (update_accounts_table account_id name currency balance
              available balance_date w).2) = true.
Proof.
  intros Hk. rewrite update_accounts_table_unfold.
  destruct (sql_upsert_account _ _ _ _ _ _ _ _) as [[n d]|e] eqn:Hsql;
    [|done].
  revert Hsql. unfold sql_upsert_account.
  destruct (pg_text account_id) as [k'|]; [|done].
  destruct (pg_timestamp balance_date) as [ts|]; [|done].
  intros [= _ <-]. unfold account_exists in *; simpl.
  by apply upsert_existsb_mono.
Qed.

Lemma update_account_snapshots_table_keeps account_id balance available
    balance_date (w : world float) (k : string) :
  account_exists k (store w) = true →
  account_exists k
    (store (update_account_snapshots_table account_id balance available
              balance_date w).2) = true.
Proof.
  intros Hk. rewrite update_account_snapshots_table_unfold.
  destruct (sql_upsert_snapshot _ _ _ _ _ _) as [[n d]|e] eqn:Hsql; [|done].
  revert Hsql. unfold sql_upsert_snapshot.
  destruct (pg_text account_id) as [k'|]; [|done].
  destruct (pg_timestamp balance_date) as [ts|]; [|done].
  destruct (_ || _); [|done].
  by intros [= _ <-].
Qed.

Lemma update_transactions_table_keeps account_id (txns : list dict)
    (w : world float) (k : string) :
  account_exists k (store w) = true →
  account_exists k (store (update_transactions_table account_id txns w).2)
    = true.
Proof.
  unfold account_exists.
  by rewrite (proj1 (update_transactions_table_tables account_id txns w)).
Qed.

Lemma sync_account_from_api_keeps (a : account_data float)
    (w : world float) (k : string) :
  account_exists k (store w) = true →
  account_exists k (store (sync_account_from_api a w).2) = true.
Proof.
  intros Hk. rewrite sync_account_from_api_unfold.
  destruct (account_args a)
    as [[[[[[id name] currency] balance] available] balance_date]|e];
    [|done].
  pose proof (update_accounts_table_keeps id name currency balance available
                balance_date w k Hk) as H1.
  destruct (update_accounts_table _ _ _ _ _ _ w) as [[n|e] w1]; [|done].
  pose proof (update_account_snapshots_table_keeps id balance available
                balance_date w1 k H1) as H2.
  destruct (update_account_snapshots_table _ _ _ _ w1) as [[n'|e] w2];
    [|done].
  destruct (nested_transactions a) as [[|txn rest]|]; [done| |done].
  pose proof (update_transactions_table_keeps id (txn :: rest) w2 k H2)
    as H3.
  by destruct (update_transactions_table _ _ w2) as [[n''|e] w3].
Qed.

Lemma sync_accounts_keeps (l : list (account_data float))
    (w : world float) (k : string) :
  account_exists k (store w) = true →
  account_exists k (store (sync_accounts l w).2) = true.
Proof.
  revert w. induction l as [|a l IH]; intros w Hk; simpl; [done|].
  unfold w_bind.
  pose proof (sync_account_from_api_keeps a w k Hk) as Ha.
  destruct (sync_account_from_api a w) as [[n|e] w1]; [|done].
  by apply IH.
Qed.

(** An account whose sync returned has its row. *)
Lemma sync_account_from_api_row (a : account_data float)
    (w w' : world float) n :
  sync_account_from_api a w = (Ok n, w') →
  ∃ id k, fields a !! "id" = Some id ∧ pg_text id = Some k
          ∧ account_exists k (store w') = true.
Proof.
  intros Hsync.
  pose proof (sync_account_from_api_keeps a w) as Hkeeps.
  rewrite Hsync in Hkeeps. simpl in Hkeeps.
  rewrite sync_account_from_api_unfold in Hsync.
  destruct (account_args a)
    as [[[[[[id name] currency] balance] available] balance_date]|e]
    eqn:Hargs; [|done].
  destruct (account_args_ok _ _ _ _ _ _ _ Hargs) as (Hid & _ & _).
  destruct (pg_text id) as [k|] eqn:Hk;
    destruct (pg_timestamp balance_date) as [ts|] eqn:Hts.
  2-4: rewrite update_accounts_table_unfold in Hsync;
       unfold sql_upsert_account in Hsync; rewrite ?Hk, ?Hts in Hsync;
       done.
  exists id, k. split_and!; [done..|].
  rewrite (update_accounts_table_ok _ _ _ _ _ _ k ts) in Hsync by done.
  set (w1 := session_over w _) in Hsync.
  assert (account_exists k (store w1) = true) as H1.
  { unfold account_exists; simpl.
    apply upsert_existsb_key; [by apply account_conflict_iff|].
    by intros r Hr%account_conflict_iff; apply account_conflict_iff. }
  pose proof (update_account_snapshots_table_keeps id balance available
                balance_date w1 k H1) as H2.
  destruct (update_account_snapshots_table _ _ _ _ w1) as [[n'|e] w2];
    [|done].
  destruct (nested_transactions a) as [[|txn rest]|].
  - by injection Hsync as _ <-.
  - pose proof (update_transactions_table_keeps id (txn :: rest) w2 k H2)
      as H3.
    destruct (update_transactions_table _ _ w2) as [[n''|e] w3]; [|done].
    by injection Hsync as _ <-.
  - by injection Hsync as _ <-.
Qed.


Lemma sync_accounts_rows (l : list (account_data float))
    (w w' : world float) :
  sync_accounts l w = (Ok (), w') →
  Forall (λ a, ∃ id k, fields a !! "id" = Some id ∧ pg_text id = Some k
                       ∧ account_exists k (store w') = true) l.
Proof.
  revert w. induction l as [|a l IH]; intros w; simpl; [done|].
  unfold w_bind.
  destruct (sync_account_from_api a w) as [[n|e] w1] eqn:Ha; [|done].
  intros Hrest. apply Forall_cons. split; [|by eapply IH].
  destruct (sync_account_from_api_row _ _ _ _ Ha) as (id & k & Hid & Hk & H1).
  exists id, k. split_and!; [done..|].
  pose proof (sync_accounts_keeps l w1 k H1) as Hkeep.
  by rewrite Hrest in Hkeep.
Qed.

End sync_facts.



(** ** Applying a payload twice *)

Section idempotence_facts.
Context {float : Type} `{!PyFloat float} `{!Postgres float}.

Abbreviation dict := (gmap string (pyval float)).

Lemma upsert_transaction_raise account_id (txn : dict) (c c' : conn float)
    e :
  upsert_transaction account_id txn c = (Raise e, c') → c' = c.
Proof.
  unfold upsert_transaction, m_bind, m_lift, execute.
  destruct (transaction_params_of account_id txn) as [p|e']; simpl.
  - destruct (sql_upsert_transaction p _ _) as [[n d]|e'']; [done|].
    by intros [= _ <-].
  - by intros [= _ <-].
Qed.

(** An id that has a row keeps one through an iteration and the loop. *)
Lemma upsert_transaction_present account_id (txn : dict) (c : conn float)
    (k : string) :
  existsb (transaction_conflict k) (transactions (c_work c)) = true →
  existsb (transaction_conflict k)
    (transactions (c_work (upsert_transaction account_id txn c).2)) = true.
Proof.
  intros Hk.
  destruct (upsert_transaction account_id txn c) as [[m|e] c'] eqn:Hstep.
  - apply upsert_transaction_ok in Hstep
      as (p & k' & acct & ts & _ & _ & _ & _ & _ & ->).
    simpl. by apply upsert_existsb_mono.
  - by rewrite (upsert_transaction_raise _ _ _ _ _ Hstep).
Qed.

Lemma upsert_transactions_present account_id (txns : list dict) count
    (c : conn float) (k : string) :
  existsb (transaction_conflict k) (transactions (c_work c)) = true →
  existsb (transaction_conflict k)
    (transactions (c_work (upsert_transactions account_id txns count c).2))
    = true.
Proof.
  revert count c. induction txns as [|txn txns IH]; intros count c Hk.
  - done.
  - simpl. unfold m_bind.
    pose proof (upsert_transaction_present account_id txn c k Hk) as Hstep.
    destruct (upsert_transaction account_id txn c) as [[m|e] c1];
      simpl in *; [by apply IH|done].
Qed.

(** After a batch that went through, every record of it has its row. *)
Lemma upsert_transactions_written account_id (txns : list dict) count
    (c c' : conn float) n :
  upsert_transactions account_id txns count c = (Ok n, c') →
  Forall (λ txn, ∃ k, txn_key txn = Some k
                      ∧ existsb (transaction_conflict k)
                          (transactions (c_work c')) = true) txns.
Proof.
  revert count c. induction txns as [|txn txns IH]; intros count c; simpl.
  - done.
  - unfold m_bind.
    destruct (upsert_transaction account_id txn c) as [[m|e] c1] eqn:Hstep;
      [|done].
    intros Hrest. apply Forall_cons. split; [|by eapply IH].
    apply upsert_transaction_ok in Hstep
      as (p & k & acct & ts & Hp & Hk & _ & _ & _ & ->).
    exists k. split.
    + by rewrite (transaction_params_of_key _ _ _ Hp).
    + pose proof (upsert_transactions_present account_id txns (count + m)%nat
                    {| c_durable := c_durable c;
                       c_work :=
                         {| accounts := accounts (c_work c);
                            account_snapshots :=
                              account_snapshots (c_work c);
                            transactions :=
                              upsert (transaction_conflict k)
                                (transaction_update p ts (c_now c))
                                (transaction_insert k acct p ts (c_now c))
                                (transactions (c_work c)) |};
                       c_now := c_now c |} k) as Hpres.
      rewrite Hrest in Hpres. apply Hpres. simpl.
      apply upsert_existsb_key; [by apply transaction_conflict_iff|].
      by intros r Hr%transaction_conflict_iff;
        apply transaction_conflict_iff.
Qed.

(** A batch whose records all have their rows adds no row. *)
Lemma upsert_transactions_same_length account_id (txns : list dict) count
    (c c' : conn float) n :
  Forall (λ txn, ∃ k, txn_key txn = Some k
                      ∧ existsb (transaction_conflict k)
                          (transactions (c_work c)) = true) txns →
  upsert_transactions account_id txns count c = (Ok n, c') →
  length (transactions (c_work c')) = length (transactions (c_work c)).
Proof.
  revert count c. induction txns as [|txn txns IH]; intros count c; simpl.
  - by intros _ [= _ <-].
  - unfold m_bind. intros [(k & Hkey & Hk) Hall]%Forall_cons.
    destruct (upsert_transaction account_id txn c) as [[m|e] c1] eqn:Hstep;
      [|done].
    intros Hrest.
    assert (Forall (λ txn, ∃ k, txn_key txn = Some k
                                ∧ existsb (transaction_conflict k)
                                    (transactions (c_work c1)) = true) txns)
      as Hall1.
    { eapply Forall_impl; [done|]. intros txn' (k' & Hkey' & Hk').
      exists k'. split; [done|].
      pose proof (upsert_transaction_present account_id txn c k' Hk')
        as Hpres.
      by rewrite Hstep in Hpres. }
    rewrite (IH _ _ Hall1 Hrest).
    apply upsert_transaction_ok in Hstep
      as (p & k' & acct & ts & Hp & Hk' & _ & _ & _ & ->).
    simpl. apply upsert_conflict_length.
    rewrite (transaction_params_of_key _ _ _ Hp), Hk' in Hkey.
    by injection Hkey as ->.
Qed.

(** With the account in place, whether a batch goes through depends on
    the batch alone. *)
Lemma upsert_transactions_ok_transfer account_id (txns : list dict)
    count count' (c c' : conn float) :
  (∀ k, pg_text account_id = Some k →
        account_exists k (c_work c) = true) →
  is_ok (upsert_transactions account_id txns count' c').1 = true →
  is_ok (upsert_transactions account_id txns count c).1 = true.
Proof.
  revert count count' c c'.
  induction txns as [|txn txns IH]; intros count count' c c' Hacct; simpl.
  - done.
  - unfold m_bind.
    destruct (upsert_transaction account_id txn c') as [[m'|e'] c1']
      eqn:Hstep'; [|done].
    apply upsert_transaction_ok in Hstep'
      as (p & k & acct & ts & Hp & Hk & Hownr & Hts & _ & _).
    assert (account_exists acct (c_work c) = true) as Hfk.
    { apply Hacct. apply transaction_params_of_ok in Hp
        as (_ & _ & _ & _ & _ & _ & _ & _ & _ & _ & _ & _ & Hid & _).
      by rewrite <-Hid. }
    unfold upsert_transaction, m_bind, m_lift, execute.
    rewrite Hp. simpl. unfold sql_upsert_transaction.
    rewrite Hk, Hownr, Hts, Hfk, orb_true_r. simpl.
    apply IH. done.
Qed.

(** The batch written a second time: the number of transaction rows
    stays. *)
Lemma update_transactions_table_again account_id (txns : list dict)
    (ws ws' : world float) :
  (∀ k, pg_text account_id = Some k →
        account_exists k (store ws) = true) →
  transactions (store ws') =
    transactions (store (update_transactions_table account_id txns ws).2) →
  length (transactions
            (store (update_transactions_table account_id txns ws').2))
    = length (transactions (store ws')).
Proof.
  intros Hacct Hfirst.
  rewrite (update_transactions_table_unfold _ _ ws').
  destruct (upsert_transactions account_id txns 0%nat (connect ws').1)
    as [[n2|e2] c2] eqn:Hsecond; [|done].
  simpl.
  assert (is_ok (upsert_transactions account_id txns 0%nat (connect ws).1).1
          = true) as Hok.
  { apply (upsert_transactions_ok_transfer _ _ _ 0%nat _ (connect ws').1);
      [done|]. by rewrite Hsecond. }
  rewrite update_transactions_table_unfold in Hfirst.
  destruct (upsert_transactions account_id txns 0%nat (connect ws).1)
    as [[n1|e1] c1] eqn:Hrun; [|done].
  simpl in Hfirst.
  pose proof (upsert_transactions_written _ _ _ _ _ _ Hrun) as Hwritten.
  change (store ws') with (c_work (connect ws').1).
  eapply upsert_transactions_same_length; [|exact Hsecond].
  eapply Forall_impl; [exact Hwritten|].
  intros txn (k & Hkey & Hk). exists k. split; [done|].
  simpl. by rewrite Hfirst.
Qed.

(** A payload whose account arguments cannot be evaluated changes
    nothing; one whose id or balance date the server rejects leaves the
    tables as they were. *)
Lemma sync_account_from_api_rejected (a : account_data float)
    (w : world float) :
  match account_args a with
  | Raise _ => True
  | Ok (id, _, _, _, _, balance_date) =>
      pg_text id = None ∨ pg_timestamp balance_date = None
  end →
  store (sync_account_from_api a w).2 = store w.
Proof.
  rewrite sync_account_from_api_unfold.
  destruct (account_args a)
    as [[[[[[id name] currency] balance] available] balance_date]|e];
    [|done].
  intros Hrejected. rewrite update_accounts_table_unfold.
  unfold sql_upsert_account.
  destruct (pg_text id), (pg_timestamp balance_date); try done.
  by destruct Hrejected.
Qed.

(** What a payload that the server accepts leaves in the tables: its
    account upserted, its snapshot upserted, and its batch, when it has
    one, run on the transactions as they were. *)
Lemma sync_account_from_api_accepted (a : account_data float)
    (w : world float) id name currency balance available balance_date
    (k : string) (ts : Z) :
  account_args a = Ok (id, name, currency, balance, available, balance_date)
  → pg_text id = Some k → pg_timestamp balance_date = Some ts →
  ∃ now_a now_s ws,
    accounts (store (sync_account_from_api a w).2) =
      upsert (account_conflict k)
        (account_update name balance available ts now_a)
        (account_insert k name currency balance available ts now_a)
        (accounts (store w))
    ∧ account_snapshots (store (sync_account_from_api a w).2) =
        upsert (snapshot_conflict k ts)
          (snapshot_update balance available now_s)
          (snapshot_insert k balance available ts now_s)
          (account_snapshots (store w))
    ∧ transactions (store ws) = transactions (store w)
    ∧ account_exists k (store ws) = true
    ∧ transactions (store (sync_account_from_api a w).2) =
        match nested_transactions a with
        | Some (txn :: rest) =>
            transactions
              (store (update_transactions_table id (txn :: rest) ws).2)
        | _ => transactions (store ws)
        end.
Proof.
  intros Hargs Hk Hts.
  rewrite sync_account_from_api_unfold, Hargs.
  rewrite (update_accounts_table_ok _ _ _ _ _ _ k ts) by done.
  set (wa := session_over w _).
  assert (account_exists k (store wa) = true) as Hrow.
  { unfold account_exists; simpl.
    apply upsert_existsb_key; [by apply account_conflict_iff|].
    by intros r Hr%account_conflict_iff; apply account_conflict_iff. }
  rewrite (update_account_snapshots_table_ok _ _ _ _ k ts) by done.
  set (ws := session_over wa _).
  exists (pg_now (sessions w)), (pg_now (sessions wa)), ws.
  destruct (nested_transactions a) as [[|txn rest]|]; [by split_and!| |
    by split_and!].
  destruct (update_transactions_table_tables id (txn :: rest) ws)
    as [Haccounts Hsnapshots].
  destruct (update_transactions_table id (txn :: rest) ws) as [[n|e] w3];
    simpl in *; by rewrite Haccounts, Hsnapshots.
Qed.

(** C1, as the code has it.  Whatever a payload is and whatever state it
    meets, syncing it a second time right after the first leaves the rows
    of [accounts] and of [account_snapshots] as the first sync left them
    in every column but the stamp ([updated_at], [snapshot_taken_at]),
    which the second sync sets to its own [NOW()], and leaves the number
    of rows of [transactions] as it was. *)
Theorem sync_twice_same_rows (a : account_data float) (w : world float) :
  let w1 := (sync_account_from_api a w).2 in
  let w2 := (sync_account_from_api a w1).2 in
  account_unstamped <$> accounts (store w2)
    = account_unstamped <$> accounts (store w1)
  ∧ snapshot_unstamped <$> account_snapshots (store w2)
    = snapshot_unstamped <$> account_snapshots (store w1)
  ∧ length (transactions (store w2)) = length (transactions (store w1)).
Proof.
  intros w1 w2.
  destruct (account_args a)
    as [[[[[[id name] currency] balance] available] balance_date]|e]
    eqn:Hargs.
  - destruct (pg_text id) as [k|] eqn:Hk;
      destruct (pg_timestamp balance_date) as [ts|] eqn:Hts.
    2-4: assert (store w2 = store w1) as ->
           by (apply sync_account_from_api_rejected; rewrite Hargs; auto);
         done.
    destruct (sync_account_from_api_accepted a w _ _ _ _ _ _ k ts
                Hargs Hk Hts)
      as (now_a & now_s & ws & Ha1 & Hs1 & Ht_ws & Hrow & Ht1).
    destruct (sync_account_from_api_accepted a w1 _ _ _ _ _ _ k ts
                Hargs Hk Hts)
      as (now_a' & now_s' & ws' & Ha2 & Hs2 & Ht_ws' & Hrow' & Ht2).
    fold w1 in Ha1, Hs1, Ht1. fold w2 in Ha2, Hs2, Ht2.
    split_and!.
    + rewrite Ha2, Ha1. apply upsert_again.
      * by apply account_conflict_iff.
      * by intros r Hr%account_conflict_iff; apply account_conflict_iff.
      * done.
      * done.
    + rewrite Hs2, Hs1. apply upsert_again.
      * by apply snapshot_conflict_iff.
      * by intros r Hr%snapshot_conflict_iff; apply snapshot_conflict_iff.
      * done.
      * done.
    + rewrite Ht2. destruct (nested_transactions a) as [[|txn rest]|];
        [congruence| |congruence].
      rewrite <-Ht_ws'. apply (update_transactions_table_again _ _ ws).
      * intros k' Hk'. congruence.
      * congruence.
  - assert (w1 = w) as Hw1.
    { subst w1. by rewrite sync_account_from_api_unfold, Hargs. }
    assert (w2 = w1) as ->.
    { subst w2. rewrite Hw1.
      by rewrite sync_account_from_api_unfold, Hargs. }
    done.
Qed.
End idempotence_facts.

(** C1 does not hold for the stamp columns: the second sync of the same
    payload writes its own [NOW()] into [updated_at] and
    [snapshot_taken_at], so the rows of both tables differ from those the
    first sync left. *)
Lemma sync_twice_restamps_rows :
  let w1 := (sync_account_from_api payload_A fresh_world).2 in
  let w2 := (sync_account_from_api payload_A w1).2 in
  accounts (store w2) ≠ accounts (store w1)
  ∧ account_snapshots (store w2) ≠ account_snapshots (store w1)
  ∧ a_updated_at <$> accounts (store w1) = [Some 200000]
  ∧ a_updated_at <$> accounts (store w2) = [Some 200003].
Proof. vm_compute. by split_and!. Qed.

(** ** The key constraints as an invariant of the sync *)

Section key_invariant.
Context {float : Type} `{!PyFloat float} `{!Postgres float}.

Lemma update_accounts_table_keys_unique account_id name currency balance
    available balance_date (w : world float) :
  keys_unique (store w) →
  keys_unique (store (update_accounts_table account_id name currency
                        balance available balance_date w).2).
Proof.
  intros (Ha & Hs & Ht). rewrite update_accounts_table_unfold.
  unfold sql_upsert_account.
  destruct (pg_text account_id) as [k|]; [|done].
  destruct (pg_timestamp balance_date) as [ts|]; [|done].
  split_and!; [|done..]. unfold account_keys; simpl.
  apply (upsert_keys_NoDup _ _ _ a_id k); try done.
  apply account_conflict_iff.
Qed.

Lemma update_account_snapshots_table_keys_unique account_id balance
    available balance_date (w : world float) :
  keys_unique (store w) →
  keys_unique (store (update_account_snapshots_table account_id balance
                        available balance_date w).2).
Proof.
  intros (Ha & Hs & Ht). rewrite update_account_snapshots_table_unfold.
  destruct (sql_upsert_snapshot _ _ _ _ _ _) as [[n d]|e] eqn:Hsql; [|done].
  pose proof (sql_upsert_snapshot_keys _ _ _ _ _ _ _ _ Hsql Hs) as Hs'.
  revert Hsql. unfold sql_upsert_snapshot.
  destruct (pg_text account_id) as [k|]; [|done].
  destruct (pg_timestamp balance_date) as [ts|]; [|done].
  destruct (_ || _); [|done].
  intros [= _ <-]. by split_and!.
Qed.

Lemma update_transactions_table_keys_unique account_id
    (txns : list (gmap string (pyval float))) (w : world float) :
  keys_unique (store w) →
  keys_unique (store (update_transactions_table account_id txns w).2).
Proof.
  intros (Ha & Hs & Ht).
  destruct (update_transactions_table_tables account_id txns w)
    as [Haccounts Hsnapshots].
  unfold keys_unique, account_keys, snapshot_keys.
  rewrite Haccounts, Hsnapshots. split_and!; [done..|].
  rewrite update_transactions_table_unfold.
  pose proof (upsert_transactions_keys account_id txns 0%nat (connect w).1 Ht)
    as Hloop.
  by destruct (upsert_transactions _ _ _ _) as [[n|e] c].
Qed.

(** Whatever the payloads are and however each sync ends, a run of
    [sync_all_accounts] leaves one row per account id, per (account id,
    balance date) and per transaction id when it started that way: no
    upsert of the three ever makes a second row for a key. *)
Lemma sync_account_from_api_keys_unique (a : account_data float)
    (w : world float) :
  keys_unique (store w) →
  keys_unique (store (sync_account_from_api a w).2).
Proof.
  intros Hw. rewrite sync_account_from_api_unfold.
  destruct (account_args a)
    as [[[[[[id name] currency] balance] available] balance_date]|e];
    [|done].
  pose proof (update_accounts_table_keys_unique id name currency balance
                available balance_date w Hw) as H1.
  destruct (update_accounts_table _ _ _ _ _ _ w) as [[n|e] w1]; [|done].
  pose proof (update_account_snapshots_table_keys_unique id balance
                available balance_date w1 H1) as H2.
  destruct (update_account_snapshots_table _ _ _ _ w1) as [[n'|e] w2];
    [|done].
  destruct (nested_transactions a) as [[|txn rest]|]; [done| |done].
  pose proof (update_transactions_table_keys_unique id (txn :: rest) w2 H2)
    as H3.
  by destruct (update_transactions_table _ _ w2) as [[n''|e] w3].
Qed.

(** X17. The key constraints are an invariant of a run: when no two
    rows share an account id, an (account id, balance date) or a
    transaction id before [sync_all_accounts], none do after it, whatever
    the response holds (the same account or transaction several times
    included) and however the run ends. *)
Lemma sync_all_accounts_keys_unique (r : api_response float)
    (w : world float) :
  keys_unique (store w) →
  keys_unique (store (sync_all_accounts r w).2).
Proof.
  unfold sync_all_accounts.
  generalize (default [] (response_accounts r)). intros l. revert w.
  induction l as [|a l IH]; intros w Hw; simpl; [done|].
  unfold w_bind.
  pose proof (sync_account_from_api_keys_unique a w Hw) as Ha.
  destruct (sync_account_from_api a w) as [[n|e] w1]; [|done].
  by apply IH.
Qed.
End key_invariant.

(** * Further properties *)

(** ** The credentials of the access URL *)

Lemma occurs_app (c : Ascii.ascii) (s1 s2 : string) :
  occurs c (s1 +:+ s2) = occurs c s1 || occurs c s2.
Proof.
  induction s1 as [|c' s1 IH]; simpl; [done|].
  by destruct (decide (c' = c)).
Qed.

Lemma string_app_cons (s1 s2 s3 : string) (c : Ascii.ascii) :
  s1 +:+ String c (s2 +:+ s3) = (s1 +:+ String c s2) +:+ s3.
Proof.
  induction s1 as [|c' s1 IH]; [done|].
  change (String c' (s1 +:+ String c (s2 +:+ s3))
          = String c' ((s1 +:+ String c s2) +:+ s3)).
  by rewrite IH.
Qed.

Lemma py_split1_absent (sep : Ascii.ascii) (s : string) :
  occurs sep s = false → py_split1 sep s = [s].
Proof.
  induction s as [|c s IH]; simpl; [done|].
  destruct (decide (c = sep)); [done|].
  intros Hs. by rewrite IH.
Qed.

Lemma py_split1_first (sep : Ascii.ascii) (s1 s2 : string) :
  occurs sep s1 = false →
  py_split1 sep (s1 +:+ String sep s2) = [s1; s2].
Proof.
  induction s1 as [|c s1 IH]; simpl.
  - intros _. by destruct (decide (sep = sep)).
  - destruct (decide (c = sep)); [done|].
    intros Hs. by rewrite IH.
Qed.

Lemma py_split1_present (sep : Ascii.ascii) (s : string) :
  occurs sep s = true →
  ∃ s1 s2, s = s1 +:+ String sep s2 ∧ occurs sep s1 = false
           ∧ py_split1 sep s = [s1; s2].
Proof.
  induction s as [|c s IH]; simpl; [done|].
  destruct (decide (c = sep)) as [->|Hc].
  - intros _. by exists EmptyString, s.
  - intros (s1 & s2 & -> & Hs1 & Hsplit)%IH.
    exists (String c s1), s2. simpl.
    destruct (decide (c = sep)); [done|]. by rewrite Hsplit.
Qed.

(** X1. A network location [user:password@host] whose user name has no
    [@] and no [:], and whose password has no [@], is split into exactly
    that user name, password and host; the password may contain [:]. *)
Theorem split_credentials_round_trip (username password host : string) :
  occurs "@"%char username = false →
  occurs ":"%char username = false →
  occurs "@"%char password = false →
  split_credentials
    (username +:+ String ":"%char (password +:+ String "@"%char host))
  = Ok (username, password, host).
Proof.
  intros Hu_at Hu_colon Hp_at. unfold split_credentials.
  rewrite string_app_cons.
  assert (occurs "@"%char (username +:+ String ":"%char password) = false)
    as Hauth.
  { rewrite occurs_app, Hu_at. simpl. by rewrite Hp_at. }
  rewrite occurs_app, Hauth. simpl.
  rewrite (py_split1_first _ _ _ Hauth).
  by rewrite (py_split1_first _ _ _ Hu_colon).
Qed.

(** X2. Whatever [split_credentials] returns puts the network location
    back together: the location is [user:password@host], the [@] is the
    first one of the location and the [:] the first one before it.  So a
    password that contains [@] is cut there, and what follows goes to the
    host. *)
Theorem split_credentials_inverse (netloc username password host : string) :
  split_credentials netloc = Ok (username, password, host) →
  netloc = username +:+ String ":"%char (password +:+ String "@"%char host)
  ∧ occurs ":"%char username = false
  ∧ occurs "@"%char username = false
  ∧ occurs "@"%char password = false.
Proof.
  unfold split_credentials.
  destruct (occurs "@"%char netloc) eqn:Hat; [|done].
  destruct (py_split1_present _ _ Hat) as (auth & h & -> & Hauth & ->).
  destruct (occurs ":"%char auth) eqn:Hcolon.
  - destruct (py_split1_present _ _ Hcolon) as (u & p & -> & Hu & ->).
    intros [= <- <- <-].
    rewrite occurs_app in Hauth. simpl in Hauth.
    apply orb_false_iff in Hauth as [Hu_at Hp_at].
    split_and!; [|done..].
    by rewrite string_app_cons.
  - by rewrite (py_split1_absent _ _ Hcolon).
Qed.

(** X3. The two ways the credentials of a network location that is a
    string are refused, both with [ValueError]: a location without [@],
    and one with no [:] before its first [@]. *)
Theorem split_credentials_refused (netloc : string) :
  (occurs "@"%char netloc = false →
   split_credentials netloc = Raise ValueError)
  ∧ (∀ auth host, netloc = auth +:+ String "@"%char host →
       occurs "@"%char auth = false → occurs ":"%char auth = false →
       split_credentials netloc = Raise ValueError).
Proof.
  split.
  - intros Hat. unfold split_credentials. by rewrite Hat.
  - intros auth host -> Hauth Hcolon. unfold split_credentials.
    rewrite occurs_app, Hauth. simpl.
    destruct (decide ("@"%char = "@"%char)); [|done]. simpl.
    rewrite (py_split1_first _ _ _ Hauth).
    by rewrite (py_split1_absent _ _ Hcolon).
Qed.

Lemma split_credentials_round_trip_witness :
  split_credentials "demo:pa:ss@bridge.example.org"
  = Ok ("demo", "pa:ss", "bridge.example.org").
Proof.
  exact (split_credentials_round_trip "demo" "pa:ss" "bridge.example.org"
           eq_refl eq_refl eq_refl).
Defined.

Lemma split_credentials_inverse_witness :
  split_credentials "user:p@ss@host" = Ok ("user", "p", "ss@host")
  ∧ "user:p@ss@host"
    = "user" +:+ String ":"%char ("p" +:+ String "@"%char "ss@host")
  ∧ occurs "@"%char "p" = false.
Proof.
  split; [reflexivity|].
  destruct (split_credentials_inverse "user:p@ss@host" "user" "p" "ss@host"
              eq_refl) as (Hnetloc & _ & _ & Hp).
  by split.
Defined.

(** ** What the three writes return, touch and keep *)

Section write_facts.
Context {float : Type} `{!PyFloat float} `{!Postgres float}.

Abbreviation dict := (gmap string (pyval float)).

Lemma upsert_transactions_count account_id (txns : list dict) count
    (c c' : conn float) n :
  upsert_transactions account_id txns count c = (Ok n, c') →
  n = (count + length txns)%nat.
Proof.
  revert count c. induction txns as [|txn txns IH]; intros count c; simpl.
  - intros [= <- _]. lia.
  - unfold m_bind.
    destruct (upsert_transaction account_id txn c) as [[m|e] c1] eqn:Hstep;
      [|done].
    apply upsert_transaction_ok in Hstep
      as (_ & _ & _ & _ & _ & _ & _ & _ & -> & _).
    intros ->%IH. lia.
Qed.

(** X4. When [update_transactions_table] returns, the count it returns
    (the sum of the row counts of the statements) is the number of
    records of the batch, the records that updated a row and repeated
    ids included; for the empty batch it is 0. *)
Theorem update_transactions_table_returns_length account_id
    (txns : list dict) (w : world float) (n : nat) :
  (update_transactions_table account_id txns w).1 = Ok n →
  n = length txns.
Proof.
  rewrite update_transactions_table_unfold.
  destruct (upsert_transactions account_id txns 0%nat (connect w).1)
    as [[m|e] c] eqn:Hloop; [|done].
  simpl. intros [= <-]. by apply upsert_transactions_count in Hloop.
Qed.

(** X5. Each of the three writes changes its own table only, whatever
    its arguments and outcome: [update_accounts_table] leaves the
    snapshots and the transactions as they are,
    [update_account_snapshots_table] the accounts and the transactions,
    [update_transactions_table] the accounts and the snapshots. *)
Theorem writes_touch_their_table_only (w : world float) :
  (∀ account_id name currency balance available balance_date,
     let out := update_accounts_table account_id name currency balance
                  available balance_date w in
     account_snapshots (store out.2) = account_snapshots (store w)
     ∧ transactions (store out.2) = transactions (store w))
  ∧ (∀ account_id balance available balance_date,
       let out := update_account_snapshots_table account_id balance
                    available balance_date w in
       accounts (store out.2) = accounts (store w)
       ∧ transactions (store out.2) = transactions (store w))
  ∧ (∀ account_id (txns : list dict),
       let out := update_transactions_table account_id txns w in
       accounts (store out.2) = accounts (store w)
       ∧ account_snapshots (store out.2) = account_snapshots (store w)).
Proof.
  split_and!.
  - intros account_id name currency balance available balance_date out.
    subst out. rewrite update_accounts_table_unfold.
    unfold sql_upsert_account.
    by destruct (pg_text account_id), (pg_timestamp balance_date).
  - intros account_id balance available balance_date out.
    subst out. rewrite update_account_snapshots_table_unfold.
    unfold sql_upsert_snapshot.
    destruct (pg_text account_id), (pg_timestamp balance_date); try done.
    by destruct (_ || _).
  - intros account_id txns out. subst out.
    apply update_transactions_table_tables.
Qed.

(** A property of rows that an update keeps, and that held of some row,
    holds of some row after an iteration and after the loop. *)
Lemma upsert_transaction_existsb account_id (txn : dict) (c : conn float)
    (P : transaction_row float → bool) :
  (∀ p ts now r, P r = true → P (transaction_update p ts now r) = true) →
  existsb P (transactions (c_work c)) = true →
  existsb P (transactions (c_work (upsert_transaction account_id txn c).2))
    = true.
Proof.
  intros Hkeep HP.
  destruct (upsert_transaction account_id txn c) as [[m|e] c'] eqn:Hstep.
  - apply upsert_transaction_ok in Hstep
      as (p & k' & acct & ts & _ & _ & _ & _ & _ & ->).
    simpl. apply upsert_existsb_mono; [|done]. apply Hkeep.
  - by rewrite (upsert_transaction_raise _ _ _ _ _ Hstep).
Qed.

Lemma upsert_transactions_existsb account_id (txns : list dict) count
    (c : conn float) (P : transaction_row float → bool) :
  (∀ p ts now r, P r = true → P (transaction_update p ts now r) = true) →
  existsb P (transactions (c_work c)) = true →
  existsb P
    (transactions (c_work (upsert_transactions account_id txns count c).2))
    = true.
Proof.
  intros Hkeep. revert count c.
  induction txns as [|txn txns IH]; intros count c HP; [done|].
  simpl. unfold m_bind.
  pose proof (upsert_transaction_existsb account_id txn c P Hkeep HP)
    as Hstep.
  destruct (upsert_transaction account_id txn c) as [[m|e] c1];
    simpl in *; [by apply IH|done].
Qed.

(** X6. [update_transactions_table] never removes a transaction and
    never moves one to another account: every row that was there has,
    after the call, a row with its id and its account id, also when the
    batch of another account carries that id. *)
Theorem update_transactions_table_keeps_owner account_id
    (txns : list dict) (w : world float) (old : transaction_row float) :
  old ∈ transactions (store w) →
  ∃ row, row ∈ transactions
                 (store (update_transactions_table account_id txns w).2)
         ∧ t_id row = t_id old
         ∧ t_account_id row = t_account_id old.
Proof.
  intros Hold.
  set (P := λ r : transaction_row float,
              bool_decide (t_id r = t_id old)
              && bool_decide (t_account_id r = t_account_id old)).
  assert (existsb P (transactions
                       (store (update_transactions_table account_id txns
                                 w).2)) = true) as Hex.
  { rewrite update_transactions_table_unfold.
    pose proof (upsert_transactions_existsb account_id txns 0%nat
                  (connect w).1 P) as Hloop.
    assert (existsb P (transactions (store w)) = true) as Hbefore.
    { apply existsb_exists. exists old. split.
      - by apply list_elem_of_In.
      - unfold P. by rewrite !bool_decide_eq_true_2. }
    destruct (upsert_transactions account_id txns 0%nat (connect w).1)
      as [[n|e] c]; simpl in *; [|done].
    apply Hloop; [|done].
    intros p ts now r. unfold P. simpl. done. }
  apply existsb_exists in Hex as (row & Hin & Hrow).
  exists row. unfold P in Hrow.
  apply andb_true_iff in Hrow as [Hid Howner].
  apply bool_decide_eq_true in Hid, Howner.
  split_and!; [by apply list_elem_of_In|done..].
Qed.
End write_facts.

Lemma update_transactions_table_returns_length_witness :
  let batch := [sample_txn "t1" 5 1 100; sample_txn "t1" 6 1 100;
                sample_txn "t2" 7 0 200] in
  let out := update_transactions_table (PyStr "A") batch world_with_A in
  out.1 = Ok 3%nat ∧ 3%nat = length batch
  ∧ length (transactions (store out.2)) = 2%nat.
Proof.
  intros batch out. subst batch out.
  assert ((update_transactions_table (PyStr "A")
             [sample_txn "t1" 5 1 100; sample_txn "t1" 6 1 100;
              sample_txn "t2" 7 0 200] world_with_A).1 = Ok 3%nat) as Hout
    by (vm_compute; reflexivity).
  split; [exact Hout|]. split.
  - exact (update_transactions_table_returns_length _ _ _ _ Hout).
  - vm_compute. reflexivity.
Defined.

Lemma update_transactions_table_keeps_owner_witness :
  let out := update_transactions_table (PyStr "B")
               [sample_txn "a1" 99 0 500] world_after_A_and_B in
  is_ok out.1 = true
  ∧ ∃ row, row ∈ transactions (store out.2)
           ∧ t_id row = "a1" ∧ t_account_id row = "A".
Proof.
  intros out. subst out. split; [vm_compute; reflexivity|].
  assert ({| t_id := "a1"; t_account_id := "A"; t_posted := true;
             t_amount := 5; t_description := PyStr "";
             t_payee := PyStr ""; t_memo := PyStr "";
             t_transacted_at := 100; t_pending := PyBool false;
             t_last_updated_at := Some 200002 |}
          ∈ transactions (store world_after_A_and_B)) as Hold
    by (vm_compute; apply list_elem_of_here).
  exact (update_transactions_table_keeps_owner (PyStr "B")
           [sample_txn "a1" 99 0 500] world_after_A_and_B _ Hold).
Defined.

(** ** Rows updated in place, rows inserted *)

Section in_place_facts.
Context {float : Type} `{!PyFloat float} `{!Postgres float}.

Abbreviation dict := (gmap string (pyval float)).

(** X7. A transaction that has its row and comes again in a batch that
    goes through (once in the batch) is updated in place: its id still
    has one row, with the id and the account id it had, with posted,
    amount, description, payee, memo, transacted-at and pending as the
    new record gives them, and with [last_updated_at] set to the [NOW()]
    of the call. *)
Theorem transaction_updated_in_place account_id (before : list dict)
    (txn : dict) (after : list dict) (w : world float) (k : string)
    (old : transaction_row float) :
  transactions_with_id k (store w) = [old] →
  txn_key txn = Some k →
  Forall (λ other, txn_key other ≠ Some k) before →
  Forall (λ other, txn_key other ≠ Some k) after →
  let out := update_transactions_table account_id (before ++ txn :: after) w
  in
  is_ok out.1 = true →
  ∃ p ts,
    transaction_params_of account_id txn = Ok p
    ∧ pg_timestamp (p_transacted_at p) = Some ts
    ∧ transactions_with_id k (store out.2) =
        [{| t_id := t_id old; t_account_id := t_account_id old;
            t_posted := p_posted p; t_amount := p_amount p;
            t_description := p_description p; t_payee := p_payee p;
            t_memo := p_memo p; t_transacted_at := ts;
            t_pending := p_pending p;
            t_last_updated_at := Some (pg_now (sessions w)) |}].
Proof.
  intros Hold Hkey Hbefore Hafter out. subst out.
  rewrite update_transactions_table_unfold, upsert_transactions_app.
  pose proof (upsert_transactions_conn account_id before 0%nat (connect w).1)
    as [_ Hnow].
  destruct (upsert_transactions account_id before 0%nat (connect w).1)
    as [[n1|e] c1] eqn:Hloop1; [|done].
  pose proof (upsert_transactions_other _ _ _ _ _ _ k Hloop1 Hbefore)
    as Hsame1.
  simpl in Hnow, Hsame1. simpl. unfold m_bind.
  destruct (upsert_transaction account_id txn c1) as [[m|e] c2] eqn:Hstep;
    [|done].
  destruct (upsert_transactions account_id after (n1 + m) c2)
    as [[n|e] c3] eqn:Hloop2; [|done].
  simpl. intros _.
  pose proof (upsert_transactions_other _ _ _ _ _ _ k Hloop2 Hafter)
    as Hsame2.
  apply upsert_transaction_ok in Hstep
    as (p & k' & acct & ts & Hp & Hk' & _ & Hts & _ & ->).
  rewrite (transaction_params_of_key _ _ _ Hp), Hk' in Hkey.
  injection Hkey as ->.
  exists p, ts. split_and!; [done..|].
  rewrite Hsame2. unfold transactions_with_id in *. simpl.
  rewrite (upsert_filter_key _ _ _ (λ r, t_id r = k));
    [|apply transaction_conflict_iff|done|done].
  by rewrite Hsame1, Hold, Hnow.
Qed.

(** X8. [update_accounts_table] for an id that has no row yet, with
    parameters the server accepts, returns 1 and appends one row that
    holds all six values, the currency included, and the default of
    [updated_at]; the rows that were there stay as they are. *)
Theorem update_accounts_table_inserts
    (account_id name currency : pyval float) (balance available : float)
    (balance_date : pyval float) (k : string) (ts : Z) (w : world float) :
  pg_text account_id = Some k →
  pg_timestamp balance_date = Some ts →
  accounts_with_id k (store w) = [] →
  let out := update_accounts_table account_id name currency balance
               available balance_date w in
  out.1 = Ok 1%nat
  ∧ accounts (store out.2) =
      accounts (store w)
      ++ [{| a_id := k; a_name := name; a_currency := currency;
             a_balance := balance; a_available_balance := available;
             a_balance_date := ts;
             a_updated_at :=
               pg_default_updated_at (pg_now (sessions w)) |}].
Proof.
  intros Hk Hts Hnone out. subst out.
  rewrite (update_accounts_table_ok _ _ _ _ _ _ k ts) by done.
  split; [done|]. simpl. apply upsert_fresh.
  apply (existsb_filter_nil _ (λ r, a_id r = k)); [|done].
  apply account_conflict_iff.
Qed.

(** X9. A batch with a record that lacks one of the four keys the loop
    reads with [txn[...]] ([amount], [id], [posted], [transacted_at])
    raises, wherever the record stands in the batch, and leaves the
    tables as they were and no connection open. *)
Theorem required_transaction_keys account_id (before : list dict)
    (txn : dict) (after : list dict) (w : world float) (key : string) :
  key ∈ ["amount"; "id"; "posted"; "transacted_at"] →
  txn !! key = None →
  let out := update_transactions_table account_id (before ++ txn :: after) w
  in
  is_ok out.1 = false ∧ store out.2 = store w
  ∧ open_conns out.2 = open_conns w.
Proof.
  intros Hkey Hnone out.
  assert (is_ok out.1 = false) as Hraise.
  { apply update_transactions_table_bad_record.
    by apply (transaction_params_of_missing _ _ key). }
  split_and!; [done| |apply get_db_sessions].
  by apply update_transactions_table_raise.
Qed.
End in_place_facts.

Lemma transaction_updated_in_place_witness :
  let out := update_transactions_table (PyStr "A")
               [sample_txn "t9" 1 0 50;
                <["pending" := PyBool true]> (sample_txn "a1" 99 0 500)]
               world_after_A_and_B in
  transactions_with_id "a1" (store out.2) =
    [{| t_id := "a1"; t_account_id := "A"; t_posted := false;
        t_amount := 99; t_description := PyStr ""; t_payee := PyStr "";
        t_memo := PyStr ""; t_transacted_at := 500;
        t_pending := PyBool true; t_last_updated_at := Some 200005 |}].
Proof.
  intros out. subst out.
  destruct (transaction_updated_in_place (PyStr "A")
              [sample_txn "t9" 1 0 50]
              (<["pending" := PyBool true]> (sample_txn "a1" 99 0 500)) []
              world_after_A_and_B "a1"
              {| t_id := "a1"; t_account_id := "A"; t_posted := true;
                 t_amount := 5; t_description := PyStr "";
                 t_payee := PyStr ""; t_memo := PyStr "";
                 t_transacted_at := 100; t_pending := PyBool false;
                 t_last_updated_at := Some 200002 |})
    as (p & ts & Hp & Hts & Hrows).
  - vm_compute. reflexivity.
  - vm_compute. reflexivity.
  - apply Forall_cons. split; [|apply Forall_nil_2].
    vm_compute. discriminate.
  - apply Forall_nil_2.
  - vm_compute. reflexivity.
  - vm_compute in Hp. injection Hp as <-.
    vm_compute in Hts. injection Hts as <-.
    exact Hrows.
Defined.

Lemma update_accounts_table_inserts_witness :
  let out := update_accounts_table (PyStr "D") (PyStr "Loan") (PyStr "CAD")
               (-250) 0 (PyInt 172800) world_with_A in
  out.1 = Ok 1%nat
  ∧ accounts (store out.2) =
      accounts (store world_with_A)
      ++ [{| a_id := "D"; a_name := PyStr "Loan";
             a_currency := PyStr "CAD"; a_balance := -250;
             a_available_balance := 0; a_balance_date := 172800;
             a_updated_at := Some 200002 |}].
Proof.
  exact (update_accounts_table_inserts (PyStr "D") (PyStr "Loan")
           (PyStr "CAD") (-250) 0 (PyInt 172800) "D" 172800 world_with_A
           eq_refl eq_refl eq_refl).
Defined.

Lemma required_transaction_keys_witness :
  let out := update_transactions_table (PyStr "A")
               [sample_txn "t1" 5 1 100;
                delete "transacted_at" (sample_txn "t2" 7 0 200)]
               world_with_A in
  is_ok out.1 = false ∧ store out.2 = store world_with_A
  ∧ open_conns out.2 = open_conns world_with_A.
Proof.
  apply (required_transaction_keys (PyStr "A") [sample_txn "t1" 5 1 100]
           (delete "transacted_at" (sample_txn "t2" 7 0 200)) []
           world_with_A "transacted_at").
  - do 3 apply list_elem_of_further. apply list_elem_of_here.
  - vm_compute. reflexivity.
Defined.

(** ** A sync run as a whole *)

Section run_facts.
Context {float : Type} `{!PyFloat float} `{!Postgres float}.

Abbreviation dict := (gmap string (pyval float)).

Lemma upsert_keys_kept {R K} (conflict : R → bool) (on_conflict : R → R)
    (new : R) (key : R → K) (rows : list R) :
  (∀ r, key (on_conflict r) = key r) →
  key <$> rows ⊆ key <$> upsert conflict on_conflict new rows.
Proof.
  intros Hkey. induction rows as [|r rows IH]; csimpl.
  - apply list_subseteq_nil.
  - destruct (conflict r); csimpl.
    + by rewrite Hkey.
    + intros x [->|Hx]%elem_of_cons.
      * apply list_elem_of_here.
      * apply list_elem_of_further. by apply IH.
Qed.

Lemma rows_kept_refl (d : db float) : rows_kept d d.
Proof. by split_and!. Qed.

Lemma rows_kept_trans (d1 d2 d3 : db float) :
  rows_kept d1 d2 → rows_kept d2 d3 → rows_kept d1 d3.
Proof.
  intros (Ha & Hs & Ht) (Ha' & Hs' & Ht').
  split_and!; by etrans.
Qed.

Lemma update_accounts_table_rows_kept account_id name currency balance
    available balance_date (w : world float) :
  rows_kept (store w)
    (store (update_accounts_table account_id name currency balance
              available balance_date w).2).
Proof.
  rewrite update_accounts_table_unfold. unfold sql_upsert_account.
  destruct (pg_text account_id) as [k|]; [|apply rows_kept_refl].
  destruct (pg_timestamp balance_date) as [ts|]; [|apply rows_kept_refl].
  split_and!; [|done..]. unfold account_keys; simpl.
  by apply upsert_keys_kept.
Qed.

Lemma update_account_snapshots_table_rows_kept account_id balance available
    balance_date (w : world float) :
  rows_kept (store w)
    (store (update_account_snapshots_table account_id balance available
              balance_date w).2).
Proof.
  rewrite update_account_snapshots_table_unfold. unfold sql_upsert_snapshot.
  destruct (pg_text account_id) as [k|]; [|apply rows_kept_refl].
  destruct (pg_timestamp balance_date) as [ts|]; [|apply rows_kept_refl].
  destruct (_ || _); [|apply rows_kept_refl].
  split_and!; [done| |done]. unfold snapshot_keys; simpl.
  by apply upsert_keys_kept.
Qed.

Lemma upsert_transactions_keys_kept account_id (txns : list dict) count
    (c : conn float) :
  transaction_keys (c_work c)
  ⊆ transaction_keys (c_work (upsert_transactions account_id txns count c).2).
Proof.
  revert count c. induction txns as [|txn txns IH]; intros count c; simpl.
  - done.
  - unfold m_bind.
    destruct (upsert_transaction account_id txn c) as [[m|e] c1] eqn:Hstep.
    + etrans; [|apply IH].
      apply upsert_transaction_ok in Hstep
        as (p & k & acct & ts & _ & _ & _ & _ & _ & ->).
      unfold transaction_keys; simpl. by apply upsert_keys_kept.
    + by rewrite (upsert_transaction_raise _ _ _ _ _ Hstep).
Qed.

Lemma update_transactions_table_rows_kept account_id (txns : list dict)
    (w : world float) :
  rows_kept (store w) (store (update_transactions_table account_id txns w).2).
Proof.
  destruct (update_transactions_table_tables account_id txns w)
    as [Haccounts Hsnapshots].
  unfold rows_kept, account_keys, snapshot_keys.
  rewrite Haccounts, Hsnapshots. split_and!; [done..|].
  rewrite update_transactions_table_unfold.
  pose proof (upsert_transactions_keys_kept account_id txns 0%nat
                (connect w).1) as Hloop.
  by destruct (upsert_transactions _ _ _ _) as [[n|e] c].
Qed.

Lemma sync_account_from_api_rows_kept (a : account_data float)
    (w : world float) :
  rows_kept (store w) (store (sync_account_from_api a w).2).
Proof.
  rewrite sync_account_from_api_unfold.
  destruct (account_args a)
    as [[[[[[id name] currency] balance] available] balance_date]|e];
    [|apply rows_kept_refl].
  pose proof (update_accounts_table_rows_kept id name currency balance
                available balance_date w) as H1.
  destruct (update_accounts_table _ _ _ _ _ _ w) as [[n|e] w1]; [|done].
  pose proof (update_account_snapshots_table_rows_kept id balance
                available balance_date w1) as H2.
  destruct (update_account_snapshots_table _ _ _ _ w1) as [[n'|e] w2];
    simpl in *; [|by eapply rows_kept_trans].
  destruct (nested_transactions a) as [[|txn rest]|];
    [by eapply rows_kept_trans| |by eapply rows_kept_trans].
  pose proof (update_transactions_table_rows_kept id (txn :: rest) w2) as H3.
  destruct (update_transactions_table _ _ w2) as [[n''|e] w3]; simpl in *;
    eapply rows_kept_trans; [|done| |done]; by eapply rows_kept_trans.
Qed.

(** X10. A run of [sync_all_accounts] removes nothing, however it ends:
    every account id, every (account id, balance date) of a snapshot and
    every transaction id that had a row before the run has one after
    it. *)
Theorem sync_all_accounts_rows_kept (r : api_response float)
    (w : world float) :
  account_keys (store w) ⊆ account_keys (store (sync_all_accounts r w).2)
  ∧ snapshot_keys (store w)
    ⊆ snapshot_keys (store (sync_all_accounts r w).2)
  ∧ transaction_keys (store w)
    ⊆ transaction_keys (store (sync_all_accounts r w).2).
Proof.
  change (rows_kept (store w) (store (sync_all_accounts r w).2)).
  unfold sync_all_accounts.
  generalize (default [] (response_accounts r)). intros l. revert w.
  induction l as [|a l IH]; intros w; simpl; [apply rows_kept_refl|].
  unfold w_bind.
  pose proof (sync_account_from_api_rows_kept a w) as Ha.
  destruct (sync_account_from_api a w) as [[n|e] w1]; [|done].
  eapply rows_kept_trans; [done|apply IH].
Qed.

(** Each write, whatever its outcome, leaves as many connections open as
    it found. *)
Lemma sync_account_from_api_open_conns (a : account_data float)
    (w : world float) :
  open_conns (sync_account_from_api a w).2 = open_conns w.
Proof.
  rewrite sync_account_from_api_unfold.
  destruct (account_args a)
    as [[[[[[id name] currency] balance] available] balance_date]|e];
    [|done].
  pose proof (proj2 (get_db_sessions
    (row_count ←$ execute (sql_upsert_account id name currency balance
                             available balance_date);
     _ ←$ m_commit; m_ret row_count) w)) as H1.
  fold (update_accounts_table id name currency balance available
          balance_date w) in H1.
  destruct (update_accounts_table _ _ _ _ _ _ w) as [[n|e] w1]; [|done].
  pose proof (proj2 (get_db_sessions
    (execute (sql_upsert_snapshot id balance available balance_date)) w1))
    as H2.
  fold (update_account_snapshots_table id balance available balance_date w1)
    in H2.
  destruct (update_account_snapshots_table _ _ _ _ w1) as [[n'|e] w2];
    simpl in *; [|congruence].
  destruct (nested_transactions a) as [[|txn rest]|]; simpl;
    [congruence| |congruence].
  pose proof (proj2 (get_db_sessions
    (upsert_transactions id (txn :: rest) 0%nat) w2)) as H3.
  fold (update_transactions_table id (txn :: rest) w2) in H3.
  destruct (update_transactions_table _ _ w2) as [[n''|e] w3]; simpl in *;
    congruence.
Qed.

(** X11. A run of [sync_all_accounts] leaves no connection open, whether
    it returns or raises: each write closes the connection it opened. *)
Theorem sync_all_accounts_closes_connections (r : api_response float)
    (w : world float) :
  open_conns (sync_all_accounts r w).2 = open_conns w.
Proof.
  unfold sync_all_accounts.
  generalize (default [] (response_accounts r)). intros l. revert w.
  induction l as [|a l IH]; intros w; simpl; [done|].
  unfold w_bind.
  pose proof (sync_account_from_api_open_conns a w) as Ha.
  destruct (sync_account_from_api a w) as [[n|e] w1]; simpl in *; [|done].
  by rewrite IH.
Qed.

(** X12. When [sync_account_from_api] returns, the statistic it returns
    is twice the number of transactions of the payload (the length is
    added before the batch is written and again after it), and 0 for a
    payload without transactions. *)
Theorem sync_account_from_api_counts_twice (a : account_data float)
    (w w' : world float) (n : nat) :
  sync_account_from_api a w = (Ok n, w') →
  n = (2 * length (default [] (nested_transactions a)))%nat.
Proof.
  rewrite sync_account_from_api_unfold.
  destruct (account_args a)
    as [[[[[[id name] currency] balance] available] balance_date]|e];
    [|done].
  destruct (update_accounts_table _ _ _ _ _ _ w) as [[m|e] w1]; [|done].
  destruct (update_account_snapshots_table _ _ _ _ w1) as [[m'|e] w2];
    [|done].
  destruct (nested_transactions a) as [[|txn rest]|]; simpl.
  - by intros [= <- _].
  - destruct (update_transactions_table _ _ w2) as [[m''|e] w3]; [|done].
    intros [= <- _]. lia.
  - by intros [= <- _].
Qed.

(** X13. When [sync_all_accounts] returns, every account of the response
    has its row. *)
Theorem sync_all_accounts_writes_every_account (r : api_response float)
    (w w' : world float) :
  sync_all_accounts r w = (Ok (), w') →
  Forall (λ a, ∃ id k, fields a !! "id" = Some id ∧ pg_text id = Some k
                       ∧ account_exists k (store w') = true)
    (default [] (response_accounts r)).
Proof. apply sync_accounts_rows. Qed.
End run_facts.

(** ** One payload: what fails, what stays, what the query then shows *)

Section payload_facts.
Context {float : Type} `{!PyFloat float} `{!Postgres float}.

Abbreviation dict := (gmap string (pyval float)).

(** The statement leaves a row of the proposed key: the proposed row or
    an updated one. *)
Lemma upsert_has_row {R} (conflict : R → bool) (on_conflict : R → R)
    (new : R) (rows : list R) (Q : R → Prop) :
  Q new → (∀ r, conflict r = true → Q (on_conflict r)) →
  ∃ r, r ∈ upsert conflict on_conflict new rows ∧ Q r.
Proof.
  intros Hnew Hupd. induction rows as [|r rows IH]; simpl.
  - exists new. split; [apply list_elem_of_here|done].
  - destruct (conflict r) eqn:Hr.
    + exists (on_conflict r). split; [apply list_elem_of_here|by apply Hupd].
    + destruct IH as (r' & Hin & HQ). exists r'.
      split; [by apply list_elem_of_further|done].
Qed.

Lemma account_args_keys (a : account_data float) args key :
  account_args a = Ok args →
  key ∈ ["id"; "name"; "currency"; "balance"; "available-balance";
         "balance-date"] →
  is_Some (fields a !! key).
Proof.
  unfold account_args, getitem, rbind.
  destruct (fields a !! "id") as [id|] eqn:H1; [|done].
  destruct (fields a !! "name") as [name|] eqn:H2; [|done].
  destruct (fields a !! "currency") as [currency|] eqn:H3; [|done].
  destruct (fields a !! "balance") as [balance_v|] eqn:H4; [|done].
  destruct (py_float balance_v) as [balance|]; [|done].
  destruct (fields a !! "available-balance") as [available_v|] eqn:H5;
    [|done].
  destruct (py_float available_v) as [available|]; [|done].
  destruct (fields a !! "balance-date") as [balance_date|] eqn:H6; [|done].
  intros _ Hkey.
  repeat (apply elem_of_cons in Hkey as [->|Hkey]; [by eexists|]).
  by apply not_elem_of_nil in Hkey.
Qed.

(** X14. A payload that lacks one of the six keys [sync_account_from_api]
    reads with [account_data[...]] makes it raise before the first write:
    nothing is written, no transaction is opened, the account row
    included. *)
Theorem required_account_keys (a : account_data float) (w : world float)
    (key : string) :
  key ∈ ["id"; "name"; "currency"; "balance"; "available-balance";
         "balance-date"] →
  fields a !! key = None →
  is_ok (sync_account_from_api a w).1 = false
  ∧ (sync_account_from_api a w).2 = w.
Proof.
  intros Hkey Hnone. rewrite sync_account_from_api_unfold.
  destruct (account_args a) as [args|e] eqn:Hargs; [|done].
  destruct (account_args_keys a args key Hargs Hkey) as [v Hv]. congruence.
Qed.

(** X15. The three writes of one payload are three transactions: when
    the account and the snapshot are written and the sync then raises
    (in the batch), the account row and the snapshot row of the payload
    stay committed with the payload's values, and the transactions are as
    they were. *)
Theorem failed_batch_keeps_account_and_snapshot (a : account_data float)
    (w w' : world float) id name currency balance available balance_date
    (k : string) (ts : Z) (e : exn) :
  account_args a = Ok (id, name, currency, balance, available, balance_date)
  → pg_text id = Some k → pg_timestamp balance_date = Some ts →
  sync_account_from_api a w = (Raise e, w') →
  (∃ row, row ∈ accounts (store w') ∧ a_id row = k ∧ a_name row = name
          ∧ a_balance row = balance ∧ a_available_balance row = available
          ∧ a_balance_date row = ts)
  ∧ (∃ row, row ∈ account_snapshots (store w') ∧ s_account_id row = k
            ∧ s_balance_date row = ts ∧ s_balance row = balance
            ∧ s_available_balance row = available)
  ∧ transactions (store w') = transactions (store w)
  ∧ ∃ txn rest, nested_transactions a = Some (txn :: rest).
Proof.
  intros Hargs Hk Hts. rewrite sync_account_from_api_unfold, Hargs.
  rewrite (update_accounts_table_ok _ _ _ _ _ _ k ts) by done.
  set (wa := session_over w _).
  assert (account_exists k (store wa) = true) as Hrow.
  { unfold account_exists; simpl.
    apply upsert_existsb_key; [by apply account_conflict_iff|].
    by intros r Hr%account_conflict_iff; apply account_conflict_iff. }
  rewrite (update_account_snapshots_table_ok _ _ _ _ k ts) by done.
  set (ws := session_over wa _).
  destruct (nested_transactions a) as [[|txn rest]|]; [done| |done].
  pose proof (update_transactions_table_raise id (txn :: rest) ws) as Hraise.
  destruct (update_transactions_table id (txn :: rest) ws) as [[n|e'] w3];
    [done|].
  intros [= _ <-]. simpl in Hraise. rewrite Hraise by done.
  split_and!.
  - simpl.
    apply (upsert_has_row _ _ _ _
             (λ row, a_id row = k ∧ a_name row = name
                     ∧ a_balance row = balance
                     ∧ a_available_balance row = available
                     ∧ a_balance_date row = ts)).
    + done.
    + intros r Hr%account_conflict_iff. done.
  - simpl.
    apply (upsert_has_row _ _ _ _
             (λ row, s_account_id row = k ∧ s_balance_date row = ts
                     ∧ s_balance row = balance
                     ∧ s_available_balance row = available)).
    + done.
    + intros r Hr%snapshot_conflict_iff. injection Hr as Hr1 Hr2. done.
  - done.
  - by exists txn, rest.
Qed.

(** A record of the previous day joined with an account of its account
    id is in the result of the query. *)
Lemma sql_select_previous_day_elem (now : Z) (d : db float)
    (acct : account_row float) (t : transaction_row float) :
  acct ∈ accounts d → t ∈ transactions d →
  a_id acct = t_account_id t → on_previous_day now t →
  view_of acct t ∈ sql_select_previous_day now d.
Proof.
  intros Hacct Ht Hid Hday. unfold sql_select_previous_day.
  apply list_elem_of_fmap. exists (acct, t). split; [done|].
  rewrite merge_sort_Permutation.
  apply list_elem_of_filter. split; [done|].
  unfold join_accounts.
  apply list_elem_of_bind. exists t. split; [|done].
  apply list_elem_of_bind. exists acct. split.
  - apply list_elem_of_here.
  - by apply list_elem_of_filter.
Qed.

(** A record with an id that has no row yet, in a batch that goes
    through: one row, of the account of the batch. *)
Lemma update_transactions_table_inserted account_id (before : list dict)
    (txn : dict) (after : list dict) (w w' : world float) (k : string) n :
  transactions_with_id k (store w) = [] →
  txn_key txn = Some k →
  Forall (λ other, txn_key other ≠ Some k) before →
  Forall (λ other, txn_key other ≠ Some k) after →
  update_transactions_table account_id (before ++ txn :: after) w
    = (Ok n, w') →
  ∃ p acct ts,
    transaction_params_of account_id txn = Ok p
    ∧ pg_text account_id = Some acct
    ∧ pg_timestamp (p_transacted_at p) = Some ts
    ∧ transactions_with_id k (store w') =
        [transaction_insert k acct p ts (pg_now (sessions w))]
    ∧ accounts (store w') = accounts (store w)
    ∧ sessions w' = S (sessions w).
Proof.
  intros Hnone Hkey Hbefore Hafter.
  destruct (update_transactions_table_tables account_id
              (before ++ txn :: after) w) as [Haccounts _].
  pose proof (proj1 (get_db_sessions
    (upsert_transactions account_id (before ++ txn :: after) 0%nat) w))
    as Hsessions.
  fold (update_transactions_table account_id (before ++ txn :: after) w)
    in Hsessions.
  intros Hout. rewrite Hout in Haccounts, Hsessions. simpl in *.
  revert Hout.
  rewrite update_transactions_table_unfold, upsert_transactions_app.
  pose proof (upsert_transactions_conn account_id before 0%nat (connect w).1)
    as [_ Hnow].
  destruct (upsert_transactions account_id before 0%nat (connect w).1)
    as [[n1|e] c1] eqn:Hloop1; [|done].
  pose proof (upsert_transactions_other _ _ _ _ _ _ k Hloop1 Hbefore)
    as Hsame1.
  simpl in Hnow, Hsame1. simpl. unfold m_bind.
  destruct (upsert_transaction account_id txn c1) as [[m|e] c2] eqn:Hstep;
    [|done].
  destruct (upsert_transactions account_id after (n1 + m) c2)
    as [[n'|e] c3] eqn:Hloop2; [|done].
  intros [= _ <-]. simpl.
  pose proof (upsert_transactions_other _ _ _ _ _ _ k Hloop2 Hafter)
    as Hsame2.
  apply upsert_transaction_ok in Hstep
    as (p & k' & acct & ts & Hp & Hk' & Hacct & Hts & _ & ->).
  rewrite (transaction_params_of_key _ _ _ Hp), Hk' in Hkey.
  injection Hkey as ->.
  exists p, acct, ts. split_and!; [done| |done| |done|done].
  - apply transaction_params_of_ok in Hp
      as (_ & _ & _ & _ & _ & _ & _ & _ & _ & _ & _ & _ & Hid & _).
    by rewrite <-Hid.
  - rewrite Hsame2. unfold transactions_with_id in *. simpl.
    rewrite (upsert_filter_key _ _ _ (λ r, t_id r = k));
      [|apply transaction_conflict_iff|done|done].
    by rewrite Hsame1, Hnone, Hnow.
Qed.
End payload_facts.

Section sync_then_query.
Context {float : Type} `{!PyFloat float} `{!Postgres float}.

Abbreviation dict := (gmap string (pyval float)).

(** X16. From the sync to the query.  When [sync_account_from_api]
    returns for a payload, a transaction of the payload whose id was new
    (and comes once in the batch) is, for a call of
    [get_todays_transactions] made next on the day after the
    transaction's date, in the list returned, with the name of the
    payload's account and the amount, description, payee, memo,
    transacted-at and pending computed from its record. *)
Theorem synced_transaction_is_reported (a : account_data float)
    (w w1 : world float) id name currency balance available balance_date
    (before : list dict) (txn : dict) (after : list dict) (kt : string)
    (n : nat) :
  account_args a = Ok (id, name, currency, balance, available, balance_date)
  → nested_transactions a = Some (before ++ txn :: after) →
  txn_key txn = Some kt →
  Forall (λ other, txn_key other ≠ Some kt) before →
  Forall (λ other, txn_key other ≠ Some kt) after →
  transactions_with_id kt (store w) = [] →
  sync_account_from_api a w = (Ok n, w1) →
  ∃ p ts,
    transaction_params_of id txn = Ok p
    ∧ pg_timestamp (p_transacted_at p) = Some ts
    ∧ (pg_date ts = pg_date (pg_now (sessions w1)) - 1 →
       ∃ views,
         (get_todays_transactions w1).1 = Ok views
         ∧ {| v_account_name := name; v_amount := p_amount p;
              v_description := p_description p; v_payee := p_payee p;
              v_memo := p_memo p; v_transacted_at := ts;
              v_pending := p_pending p |} ∈ views).
Proof.
  intros Hargs Hnested Hkey Hbefore Hafter Hnone.
  rewrite sync_account_from_api_unfold, Hargs.
  destruct (pg_text id) as [k|] eqn:Hk;
    destruct (pg_timestamp balance_date) as [bts|] eqn:Hbts.
  2-4: rewrite update_accounts_table_unfold; unfold sql_upsert_account;
       rewrite ?Hk, ?Hbts; done.
  rewrite (update_accounts_table_ok _ _ _ _ _ _ k bts) by done.
  set (wa := session_over w _).
  assert (account_exists k (store wa) = true) as Hrow.
  { unfold account_exists; simpl.
    apply upsert_existsb_key; [by apply account_conflict_iff|].
    by intros r Hr%account_conflict_iff; apply account_conflict_iff. }
  rewrite (update_account_snapshots_table_ok _ _ _ _ k bts) by done.
  set (ws := session_over wa _).
  rewrite Hnested.
  destruct (before ++ txn :: after) as [|first rest] eqn:Hbatch;
    [by destruct before|].
  destruct (update_transactions_table id (first :: rest) ws)
    as [[m|e] w3] eqn:Hwrite; [|done].
  intros [= _ <-]. rewrite <-Hbatch in Hwrite.
  apply (update_transactions_table_inserted _ _ _ _ _ _ kt) in Hwrite
    as (p & acct & ts & Hp & Hacct & Hts & Hrows & Haccounts & _);
    [|done..].
  assert (acct = k) as -> by congruence.
  exists p, ts. split_and!; [done..|]. intros Hday.
  exists (sql_select_previous_day (pg_now (sessions w3)) (store w3)).
  split; [unfold get_todays_transactions; by rewrite get_db_unfold|].
  destruct (upsert_has_row (account_conflict k)
              (account_update name balance available bts
                 (pg_now (sessions w)))
              (account_insert k name currency balance available bts
                 (pg_now (sessions w)))
              (accounts (store w))
              (λ row, a_id row = k ∧ a_name row = name))
    as (acct_row & Hacct_row & Hid & Hname).
  { done. }
  { by intros r Hr%account_conflict_iff. }
  set (t := transaction_insert kt k p ts (pg_now (sessions ws))) in Hrows.
  replace {| v_account_name := name; v_amount := p_amount p;
             v_description := p_description p; v_payee := p_payee p;
             v_memo := p_memo p; v_transacted_at := ts;
             v_pending := p_pending p |}
    with (view_of acct_row t) by (unfold view_of; by rewrite Hname).
  apply sql_select_previous_day_elem.
  - by rewrite Haccounts.
  - assert (t ∈ transactions_with_id kt (store w3)) as Hin
      by (rewrite Hrows; apply list_elem_of_here).
    by apply list_elem_of_filter in Hin as [_ Hin].
  - done.
  - done.
Qed.
End sync_then_query.

Lemma synced_transaction_is_reported_witness :
  ∃ views,
    (get_todays_transactions
       (sync_account_from_api payload_A_day1 fresh_world).2).1 = Ok views
    ∧ {| v_account_name := PyStr "Checking"; v_amount := 5;
         v_description := PyStr ""; v_payee := PyStr "";
         v_memo := PyStr ""; v_transacted_at := 90000;
         v_pending := PyBool false |} ∈ views.
Proof.
  assert (sync_account_from_api payload_A_day1 fresh_world
          = (Ok 2%nat, (sync_account_from_api payload_A_day1 fresh_world).2))
    as Hsync by (vm_compute; reflexivity).
  destruct (synced_transaction_is_reported payload_A_day1 fresh_world
              (sync_account_from_api payload_A_day1 fresh_world).2
              (PyStr "A") (PyStr "Checking") (PyStr "USD") 100 90
              (PyInt 86400) [] (sample_txn "a1" 5 1 90000) [] "a1" 2%nat)
    as (p & ts & Hp & Hts & Hviews).
  - vm_compute. reflexivity.
  - reflexivity.
  - vm_compute. reflexivity.
  - apply Forall_nil_2.
  - apply Forall_nil_2.
  - reflexivity.
  - exact Hsync.
  - vm_compute in Hp. injection Hp as <-.
    vm_compute in Hts. injection Hts as <-.
    apply Hviews. vm_compute. reflexivity.
Defined.

Section row_frame.
Context {float : Type} `{!PyFloat float} `{!Postgres float}.

Abbreviation dict := (gmap string (pyval float)).

Lemma upsert_other_row {R} (conflict : R → bool) (on_conflict : R → R)
    (new : R) (rows : list R) (r : R) :
  r ∈ rows → conflict r = false →
  r ∈ upsert conflict on_conflict new rows.
Proof.
  intros Hin Hr. induction rows as [|r' rows IH]; simpl.
  - by apply not_elem_of_nil in Hin.
  - apply elem_of_cons in Hin as [<-|Hin].
    + rewrite Hr. apply list_elem_of_here.
    + destruct (conflict r'); apply list_elem_of_further; auto.
Qed.

Lemma upsert_transactions_other_row account_id (txns : list dict) count
    (c : conn float) (row : transaction_row float) :
  row ∈ transactions (c_work c) →
  Forall (λ txn, txn_key txn ≠ Some (t_id row)) txns →
  row ∈ transactions
          (c_work (upsert_transactions account_id txns count c).2).
Proof.
  revert count c. induction txns as [|txn txns IH]; intros count c Hin;
    simpl; [done|].
  intros [Hne Hall]%Forall_cons. unfold m_bind.
  destruct (upsert_transaction account_id txn c) as [[m|e] c1] eqn:Hstep.
  - apply IH; [|done].
    apply upsert_transaction_ok in Hstep
      as (p & k & acct & ts & Hp & Hk & _ & _ & _ & ->).
    simpl. apply upsert_other_row; [done|].
    rewrite (transaction_params_of_key _ _ _ Hp), Hk in Hne.
    apply not_true_iff_false. intros Hc%transaction_conflict_iff.
    congruence.
  - by rewrite (upsert_transaction_raise _ _ _ _ _ Hstep).
Qed.

(** X18. A write leaves every row of another key exactly as it is,
    stamp included: [update_accounts_table] the rows of the other
    accounts, [update_account_snapshots_table] the snapshots of other
    accounts and of other dates (the earlier points of the series),
    [update_transactions_table] the transactions whose id is not in the
    batch. *)
Theorem writes_touch_their_key_only (w : world float) :
  (∀ account_id name currency balance available balance_date row,
     row ∈ accounts (store w) →
     pg_text account_id ≠ Some (a_id row) →
     row ∈ accounts
             (store (update_accounts_table account_id name currency
                       balance available balance_date w).2))
  ∧ (∀ account_id balance available balance_date row,
       row ∈ account_snapshots (store w) →
       (pg_text account_id ≠ Some (s_account_id row)
        ∨ pg_timestamp balance_date ≠ Some (s_balance_date row)) →
       row ∈ account_snapshots
               (store (update_account_snapshots_table account_id balance
                         available balance_date w).2))
  ∧ (∀ account_id (txns : list dict) row,
       row ∈ transactions (store w) →
       Forall (λ txn, txn_key txn ≠ Some (t_id row)) txns →
       row ∈ transactions
               (store (update_transactions_table account_id txns w).2)).
Proof.
  split_and!.
  - intros account_id name currency balance available balance_date row
      Hin Hne.
    rewrite update_accounts_table_unfold. unfold sql_upsert_account.
    destruct (pg_text account_id) as [k|]; [|done].
    destruct (pg_timestamp balance_date) as [ts|]; [|done].
    simpl. apply upsert_other_row; [done|].
    apply not_true_iff_false. intros Hc%account_conflict_iff. congruence.
  - intros account_id balance available balance_date row Hin Hne.
    rewrite update_account_snapshots_table_unfold.
    unfold sql_upsert_snapshot.
    destruct (pg_text account_id) as [k|]; [|done].
    destruct (pg_timestamp balance_date) as [ts|]; [|done].
    destruct (_ || _); [|done].
    simpl. apply upsert_other_row; [done|].
    apply not_true_iff_false. intros Hc%snapshot_conflict_iff.
    injection Hc as Hk Hts. destruct Hne; congruence.
  - intros account_id txns row Hin Hall.
    rewrite update_transactions_table_unfold.
    pose proof (upsert_transactions_other_row account_id txns 0%nat
                  (connect w).1 row Hin Hall) as Hloop.
    by destruct (upsert_transactions _ _ _ _) as [[n|e] c].
Qed.
End row_frame.

Lemma sync_account_from_api_counts_twice_witness :
  (sync_account_from_api payload_A fresh_world).1 = Ok 2%nat
  ∧ 2%nat = (2 * length (default [] (nested_transactions payload_A)))%nat.
Proof.
  assert (sync_account_from_api payload_A fresh_world
          = (Ok 2%nat, (sync_account_from_api payload_A fresh_world).2))
    as Hsync by (vm_compute; reflexivity).
  split.
  - exact (f_equal fst Hsync).
  - exact (sync_account_from_api_counts_twice _ _ _ _ Hsync).
Defined.

Lemma sync_all_accounts_writes_every_account_witness :
  Forall (λ a, ∃ id k, fields a !! "id" = Some id
                       ∧ pg_text id = Some k
                       ∧ account_exists k
                           (store (sync_all_accounts
                                     {| response_accounts :=
                                          Some [payload_A; payload_C] |}
                                     fresh_world).2) = true)
    [payload_A; payload_C].
Proof.
  assert (sync_all_accounts
            {| response_accounts := Some [payload_A; payload_C] |}
            fresh_world
          = (Ok (),
             (sync_all_accounts
                {| response_accounts := Some [payload_A; payload_C] |}
                fresh_world).2)) as Hrun by (vm_compute; reflexivity).
  exact (sync_all_accounts_writes_every_account _ _ _ Hrun).
Defined.

Lemma required_account_keys_witness :
  is_ok (sync_account_from_api payload_without_currency fresh_world).1
    = false
  ∧ (sync_account_from_api payload_without_currency fresh_world).2
    = fresh_world.
Proof.
  apply (required_account_keys payload_without_currency fresh_world
           "currency").
  - do 2 apply list_elem_of_further. apply list_elem_of_here.
  - vm_compute. reflexivity.
Defined.

Lemma failed_batch_keeps_account_and_snapshot_witness :
  (∃ row, row ∈ accounts
                  (store (sync_account_from_api payload_B_bad_batch
                            fresh_world).2)
          ∧ a_id row = "B" ∧ a_name row = PyStr "Savings"
          ∧ a_balance row = 500 ∧ a_available_balance row = 90
          ∧ a_balance_date row = 86400)
  ∧ (∃ row, row ∈ account_snapshots
                    (store (sync_account_from_api payload_B_bad_batch
                              fresh_world).2)
            ∧ s_account_id row = "B" ∧ s_balance_date row = 86400
            ∧ s_balance row = 500 ∧ s_available_balance row = 90)
  ∧ transactions
      (store (sync_account_from_api payload_B_bad_batch fresh_world).2)
    = transactions (store fresh_world)
  ∧ ∃ txn rest, nested_transactions payload_B_bad_batch
                = Some (txn :: rest).
Proof.
  assert (sync_account_from_api payload_B_bad_batch fresh_world
          = (Raise (KeyError "amount"),
             (sync_account_from_api payload_B_bad_batch fresh_world).2))
    as Hsync by (vm_compute; reflexivity).
  assert (account_args payload_B_bad_batch
          = Ok (PyStr "B", PyStr "Savings", PyStr "USD", 500, 90,
                PyInt 86400)) as Hargs by (vm_compute; reflexivity).
  exact (failed_batch_keeps_account_and_snapshot payload_B_bad_batch
           fresh_world _ _ _ _ _ _ _ "B" 86400 _ Hargs eq_refl eq_refl
           Hsync).
Defined.

Lemma sync_all_accounts_keys_unique_witness :
  keys_unique
    (store (sync_all_accounts
              {| response_accounts :=
                   Some [payload_A; payload_A; payload_B_bad_batch;
                         payload_C] |}
              fresh_world).2).
Proof.
  apply sync_all_accounts_keys_unique.
  split_and!; apply NoDup_nil_2.
Defined.
